(** * train1.py: the command-line training entry point

    A shallow embedding of [src/train1.py].  The script is glue code: it
    parses five command-line options, loads three YAML documents, builds
    datasets, a batch sampler, data loaders, the model task, the
    checkpoint and progress callbacks and the trainer, picks the
    checkpoint to resume from, runs [trainer.fit] and, in finetuning
    mode, saves a weights-only checkpoint.

    The imported components (dataset, sampler, task, trainer) are not part
    of the file.  Every call into them is recorded as an event carrying
    the arguments the script passes; what they do with the arguments is
    outside the embedding.  The script itself is a computation in a
    state-and-exception monad over the file system it reads and the
    events it has produced so far. *)

From Stdlib Require Import ZArith QArith Ascii String List Lia.
From Stdlib Require Import Floats.SpecFloat.
From stdpp Require Import base option list strings gmap fin_maps.

Set Warnings "-register-all".

Local Open Scope Z_scope.
Local Open Scope string_scope.
Local Open Scope list_scope.

(** ** Python strings (ASCII) *)

Module PyStr.

Definition to_list (s : string) : list ascii := list_ascii_of_string s.
Definition of_list (l : list ascii) : string := string_of_list_ascii l.

Definition ascii_eqb (a b : ascii) : bool := Ascii.eqb a b.

(** [s.endswith(suf)] *)
Fixpoint list_prefixb (p l : list ascii) : bool :=
  match p, l with
  | [], _ => true
  | a :: p', b :: l' => ascii_eqb a b && list_prefixb p' l'
  | _ :: _, [] => false
  end.

Definition startswith (p s : string) : bool :=
  list_prefixb (to_list p) (to_list s).

Definition endswith (suf s : string) : bool :=
  list_prefixb (rev (to_list suf)) (rev (to_list s)).

(** [s.split(c)] for a one-character separator: the pieces between the
    occurrences of [c], empty pieces included. *)
Fixpoint split_char (c : ascii) (s : string) : list string :=
  match s with
  | EmptyString => [EmptyString]
  | String a s' =>
      if ascii_eqb a c then EmptyString :: split_char c s'
      else match split_char c s' with
           | [] => [String a EmptyString]
           | piece :: rest => String a piece :: rest
           end
  end.

(** [s.split(sep)] for a separator of any length (non-empty): scanning
    from the left, every occurrence of [sep] closes the current piece and
    the scan goes on after it.  [skip] counts the characters of a matched
    separator that are still to be passed over; [cur] is the current
    piece, last character first. *)
Fixpoint split_go (sep : list ascii) (skip : nat) (cur : list ascii)
    (l : list ascii) : list string :=
  match l with
  | [] => [of_list (rev cur)]
  | a :: l' =>
      match skip with
      | S k => split_go sep k cur l'
      | O =>
          if list_prefixb sep l
          then of_list (rev cur) :: split_go sep (Nat.pred (length sep)) [] l'
          else split_go sep O (a :: cur) l'
      end
  end.

Definition split (sep s : string) : list string :=
  split_go (to_list sep) O [] (to_list s).

(** [sep.join(pieces)] *)
Fixpoint join (sep : string) (pieces : list string) : string :=
  match pieces with
  | [] => EmptyString
  | [p] => p
  | p :: rest => p +:+ sep +:+ join sep rest
  end.

(** [s.rfind(c)]: the index of the last occurrence of [c]. *)
Fixpoint rfind_go (c : ascii) (i : nat) (found : option nat)
    (l : list ascii) : option nat :=
  match l with
  | [] => found
  | a :: l' =>
      rfind_go c (S i) (if ascii_eqb a c then Some i else found) l'
  end.

Definition rfind (c : ascii) (s : string) : option nat :=
  rfind_go c O None (to_list s).

(** ** [int(s)] on a string, base ten

    Leading and trailing whitespace (tab, newline, vertical tab, form
    feed, carriage return, space) is dropped, one sign is allowed, and
    the digits may be grouped by single underscores.  Anything else is a
    [ValueError] ([None] here).  Strings are ASCII, and shorter than the
    interpreter's limit on the number of digits, as file names are. *)

Definition is_space (a : ascii) : bool :=
  let n := nat_of_ascii a in
  ((9 <=? n) && (n <=? 13) || (n =? 32))%nat.

Definition digit_value (a : ascii) : option Z :=
  let n := nat_of_ascii a in
  if ((48 <=? n) && (n <=? 57))%nat then Some (Z.of_nat n - 48) else None.

Fixpoint drop_space (l : list ascii) : list ascii :=
  match l with
  | a :: l' => if is_space a then drop_space l' else l
  | [] => []
  end.

Definition strip (l : list ascii) : list ascii :=
  rev (drop_space (rev (drop_space l))).

Fixpoint digits_value (acc : Z) (after_digit : bool) (l : list ascii)
    : option Z :=
  match l with
  | [] => if after_digit then Some acc else None
  | a :: l' =>
      match digit_value a with
      | Some d => digits_value (10 * acc + d) true l'
      | None =>
          if ascii_eqb a "_" && after_digit
          then digits_value acc false l'
          else None
      end
  end.

Definition int (s : string) : option Z :=
  match strip (to_list s) with
  | a :: l =>
      if ascii_eqb a "-" then Z.opp <$> digits_value 0 false l
      else if ascii_eqb a "+" then digits_value 0 false l
      else digits_value 0 false (a :: l)
  | [] => None
  end.

End PyStr.

(** ** [pathlib] paths (POSIX flavour)

    A path is its root ([""] for a relative path, ["/"] or ["//"]) and its
    components.  Building a path from a string drops empty components and
    ["."]; [".."] is kept as a component like any other, as [pathlib]
    does. *)

Record Path : Type := mkPath { root : string; parts : list string }.

Module Pathlib.

Definition leading_root (s : string) : string :=
  if PyStr.startswith "///" s then "/"
  else if PyStr.startswith "//" s then "//"
  else if PyStr.startswith "/" s then "/"
  else "".

Definition real_part (c : string) : bool :=
  negb (String.eqb c "") && negb (String.eqb c ".").

(** [pathlib.Path(s)] *)
Definition of_string (s : string) : Path :=
  {| root := leading_root s;
     parts := List.filter real_part (PyStr.split_char "/" s) |}.

(** [p / s] for a string [s]: an anchored right operand replaces [p]. *)
Definition joinpath (p : Path) (s : string) : Path :=
  let q := of_string s in
  if String.eqb (root q) "" then
    {| root := root p; parts := parts p ++ parts q |}
  else q.

(** [str(p)] *)
Definition to_string (p : Path) : string :=
  match parts p with
  | [] => if String.eqb (root p) "" then "." else root p
  | ps => root p +:+ PyStr.join "/" ps
  end.

(** [p.name]: the last component, [""] when there is none. *)
Definition name (p : Path) : string := List.last (parts p) "".

(** [p.stem]: the name without its last suffix; a name that only starts
    or only ends with a dot has no suffix. *)
Definition stem (p : Path) : string :=
  let n := name p in
  match PyStr.rfind "." n with
  | Some i =>
      if ((0 <? i) && (S i <? String.length n))%nat
      then String.substring 0 i n else n
  | None => n
  end.

Definition eqb (p q : Path) : bool :=
  String.eqb (root p) (root q)
  && bool_decide (parts p = parts q).

(** [q] lies strictly below the directory [p]. *)
Fixpoint strictly_below (dir q : list string) : bool :=
  match dir, q with
  | [], _ :: _ => true
  | a :: dir', b :: q' => String.eqb a b && strictly_below dir' q'
  | _, [] => false
  end.

Definition below (dir q : Path) : bool :=
  String.eqb (root dir) (root q) && strictly_below (parts dir) (parts q).

(** The directories on the way to [p], outermost first, [p] last. *)
Fixpoint chain (r : string) (done todo : list string) : list Path :=
  match todo with
  | [] => []
  | c :: todo' =>
      {| root := r; parts := done ++ [c] |} :: chain r (done ++ [c]) todo'
  end.

Definition ancestors_and_self (p : Path) : list Path :=
  chain (root p) [] (parts p).

End Pathlib.

Notation "p // s" := (Pathlib.joinpath p s)
  (at level 40, left associativity).

(** ** YAML documents

    What [yaml.safe_load] returns.  Mappings are dictionaries with string
    keys: every key this script reads is a string literal.  A float is a
    binary64 datum, as in Python: a signed zero, an infinity, NaN, or a
    sign, a mantissa and an exponent. *)

Inductive yaml : Type :=
| YNull
| YBool (b : bool)
| YInt (n : Z)
| YFloat (f : spec_float)
| YStr (s : string)
| YSeq (l : list yaml)
| YMap (m : gmap string yaml).

#[global] Instance yaml_inhabited : Inhabited yaml := populate YNull.

(** ** Exceptions *)

Inductive exn : Type :=
| FileNotFoundError (path : string)
| YAMLError (path : string)
| AttributeError
| TypeError
| ValueError
| KeyError (key : string)
| FileExistsError (path : string)
| NotADirectoryError (path : string)
| OverflowError.

(** The outcome of a step: a value, an exception, or [Unmodelled] for the
    few inputs whose behaviour the embedding does not describe. *)
Inductive Res (A : Type) : Type :=
| Ok (a : A)
| Raise (e : exn)
| Unmodelled.
Arguments Ok {A} a.
Arguments Raise {A} e.
Arguments Unmodelled {A}.

(** ** Python operators on loaded values *)

Module Py.

(** Python's [float] is IEEE 754 binary64. *)
Definition prec : Z := 53.
Definition emax : Z := 1024.

(** The integer a value stands for in arithmetic ([bool] is a subclass of
    [int]); [None] for every other value. *)
Definition int_value (v : yaml) : option Z :=
  match v with
  | YBool b => Some (if b then 1 else 0)
  | YInt n => Some n
  | _ => None
  end.

(** The rational number a float denotes; [None] for the infinities and
    NaN. *)
Definition float_value (f : spec_float) : option Q :=
  match f with
  | S754_zero _ => Some 0%Q
  | S754_finite s m e =>
      let mantissa := if s then Zneg m else Zpos m in
      Some (if (0 <=? e)%Z then inject_Z (mantissa * 2 ^ e)
            else Qmake mantissa (Z.to_pos (2 ^ (- e))))
  | S754_infinity _ | S754_nan => None
  end.

(** [float(d)] for an integer that a float holds exactly. *)
Definition float_of_small (d : positive) : spec_float :=
  binary_normalize prec emax (Zpos d) 0 false.

(** [v > 0]: integers are compared as integers; a float is greater than
    zero when it is positive and not NaN. *)
Definition gt_zero (v : yaml) : Res bool :=
  match v with
  | YFloat f => Ok (SFltb (S754_zero false) f)
  | _ =>
      match int_value v with
      | Some n => Ok (0 <? n)%Z
      | None => Raise TypeError
      end
  end.

(** [v / d] for the integer literals 1 and 2: true division, the result
    is a float.  An integer is divided exactly and the quotient rounded
    once, to the nearest float, ties to the even mantissa; a quotient
    beyond the range of floats is an [OverflowError].  A float is divided
    by [float(d)] as IEEE 754 division, which never raises for these
    divisors. *)
Definition truediv (v : yaml) (d : positive) : Res yaml :=
  match d with
  | 1%positive | 2%positive =>
      match v with
      | YFloat f => Ok (YFloat (SFdiv prec emax f (float_of_small d)))
      | _ =>
          match int_value v with
          | Some n =>
              match binary_normalize prec emax n
                      (if Pos.eqb d 2 then -1 else 0) false with
              | S754_infinity _ => Raise OverflowError
              | quotient => Ok (YFloat quotient)
              end
          | None => Raise TypeError
          end
      end
  | _ => Unmodelled
  end.

(** [v[key]] for a string key. *)
Definition getitem (v : yaml) (key : string) : Res yaml :=
  match v with
  | YMap m =>
      match m !! key with
      | Some x => Ok x
      | None => Raise (KeyError key)
      end
  | _ => Raise TypeError
  end.

(** [p / v] for a path [p]: only a string can be joined. *)
Definition path_div (p : Path) (v : yaml) : Res Path :=
  match v with
  | YStr s => Ok (p // s)
  | _ => Raise TypeError
  end.

End Py.

(** ** The world the script runs in

    [docs] gives, for the path string handed to [open], what
    [yaml.safe_load] makes of the file.  [entries] lists the files and
    directories of the checkpoint tree in the order in which a directory
    scan reports them. *)

Inductive FileContent : Type :=
| Missing
| Malformed
| Doc (y : yaml).

Inductive EntryKind : Type := KFile | KDir.

Record World : Type := mkWorld {
  docs : string -> FileContent;
  entries : list (Path * EntryKind)
}.

(** ** Calls into the imported components *)

Inductive Split : Type := Train | Valid.

Inductive Callback : Type := CbModelCheckpoint | CbProgressBar.

Record SamplerArgs : Type := mkSamplerArgs {
  sa_oversampling_weights : yaml;
  sa_max_length : yaml;
  sa_binning_length : yaml;
  sa_drop_last : yaml
}.

(** A keyword the script does not pass is [None]. *)
Record LoaderArgs : Type := mkLoaderArgs {
  dl_dataset : Split;
  dl_batch_sampler : bool;
  dl_batch_size : option Z;
  dl_shuffle : option bool;
  dl_num_workers : yaml;
  dl_persistent_workers : bool;
  dl_pin_memory : option bool;
  dl_prefetch_factor : option (option Z)
}.

Record TaskArgs : Type := mkTaskArgs {
  ta_vocab : yaml;           (* passed as the text yaml.safe_dump(vocab) *)
  ta_model : yaml;
  ta_melspec_config : yaml;
  ta_optimizer_config : yaml;
  ta_loss_config : yaml;
  ta_augmentation : bool
}.

Record CheckpointArgs : Type := mkCheckpointArgs {
  mc_dirpath : string;
  mc_monitor : string;
  mc_mode : string;
  mc_save_top_k : yaml;
  mc_filename : string;
  mc_every_n_train_steps : yaml;
  mc_verbose : bool
}.

Record TrainerArgs : Type := mkTrainerArgs {
  tr_accelerator : yaml;
  tr_devices : yaml;
  tr_precision : yaml;
  tr_gradient_clip_val : yaml;
  tr_gradient_clip_algorithm : yaml;
  tr_default_root_dir : string;
  tr_val_check_interval : yaml;
  tr_max_epochs : Z;
  tr_max_steps : yaml;
  tr_callbacks : list (option Callback)
}.

Record FitArgs : Type := mkFitArgs {
  fit_train_dataloaders : Split;
  fit_val_dataloaders : Split;
  fit_ckpt_path : option string
}.

Inductive Event : Type :=
| EvSetEnv (key value : string)
| EvOpen (path : string)
| EvSetMatmulPrecision (v : yaml)
| EvSeedEverything (seed : yaml) (workers : bool)
| EvMixedDataset (d : Split) (augmentation_size : yaml) (folder : Path)
    (prefix : string)
| EvDatasetCall (d : Split) (method : string)
| EvSampler (a : SamplerArgs)
| EvDataLoader (a : LoaderArgs)
| EvTask (a : TaskArgs)
| EvMkdir (p : Path)
| EvModelCheckpoint (a : CheckpointArgs)
| EvProgressBar
| EvTrainer (a : TrainerArgs)
| EvLoadFromCheckpoint (path : string)
| EvLoadPretrained
| EvRglob (dir : Path) (pattern : string)
| EvFit (a : FitArgs)
| EvSaveCheckpoint (path : string) (weights_only : bool).

(** ** The monad: world, events so far, exceptions *)

Record State : Type := mkState { world : World; trace : list Event }.

Definition M (A : Type) : Type := State -> Res A * State.

#[global] Instance M_ret : MRet M := fun A a s => (Ok a, s).

#[global] Instance M_bind : MBind M := fun A B k m s =>
  match m s with
  | (Ok a, s') => k a s'
  | (Raise e, s') => (Raise e, s')
  | (Unmodelled, s') => (Unmodelled, s')
  end.

Definition lift {A} (r : Res A) : M A := fun s => (r, s).

Definition emit (e : Event) : M unit := fun s =>
  (Ok tt, {| world := world s; trace := trace s ++ [e] |}).

Definition initial (w : World) : State := {| world := w; trace := [] |}.

(** ** File system operations *)

Module Fs.

Definition lookup (es : list (Path * EntryKind)) (p : Path)
    : option EntryKind :=
  snd <$> List.find (fun e => Pathlib.eqb (fst e) p) es.

(** [p.mkdir(parents=True, exist_ok=True)]: every missing directory on
    the way is created; a file in the way is an error, and the error
    names [p]. *)
Fixpoint mkdir_chain (target : Path) (es : list (Path * EntryKind))
    (ps : list Path) : Res (list (Path * EntryKind)) :=
  match ps with
  | [] => Ok es
  | p :: ps' =>
      match lookup es p with
      | Some KDir => mkdir_chain target es ps'
      | Some KFile =>
          if Pathlib.eqb p target
          then Raise (FileExistsError (Pathlib.to_string p))
          else Raise (NotADirectoryError (Pathlib.to_string target))
      | None => mkdir_chain target (es ++ [(p, KDir)]) ps'
      end
  end.

Definition mkdir (p : Path) : M unit := fun s =>
  let s1 := {| world := world s; trace := trace s ++ [EvMkdir p] |} in
  match mkdir_chain p (entries (world s)) (Pathlib.ancestors_and_self p) with
  | Ok es =>
      (Ok tt, {| world := {| docs := docs (world s); entries := es |};
                 trace := trace s1 |})
  | Raise e => (Raise e, s1)
  | Unmodelled => (Unmodelled, s1)
  end.

(** [dir.rglob("*" + suffix)]: every entry strictly below [dir], at any
    depth, whose name ends with [suffix], in scan order. *)
Definition glob_below (dir : Path) (suffix : string)
    (es : list (Path * EntryKind)) : list Path :=
  fst <$> List.filter
    (fun e => Pathlib.below dir (fst e)
              && PyStr.endswith suffix (Pathlib.name (fst e))) es.

Definition rglob (dir : Path) (suffix : string) : M (list Path) := fun s =>
  (Ok (glob_below dir suffix (entries (world s))),
   {| world := world s;
      trace := trace s ++ [EvRglob dir ("*" +:+ suffix)] |}).

(** [yaml.safe_load(open(path))] *)
Definition load_yaml (path : string) : M yaml := fun s =>
  let s1 := {| world := world s; trace := trace s ++ [EvOpen path] |} in
  match docs (world s) path with
  | Doc y => (Ok y, s1)
  | Missing => (Raise (FileNotFoundError path), s1)
  | Malformed => (Raise (YAMLError path), s1)
  end.

End Fs.

(** ** The command line

    The five [@click.option] decorators, as data.  Splitting the command
    line into options is [click]'s work; what reaches this file is the
    mapping from parameter names to the values found there, and an option
    that was not given takes its declared default. *)

Inductive CliValue : Type :=
| VNone
| VStr (s : string)
| VBool (b : bool).

Record ClickOption : Type := mkOption {
  opt_param : string;
  opt_decls : list string;
  opt_is_flag : bool;
  opt_default : CliValue
}.

Definition click_options : list ClickOption :=
  [ mkOption "config_path" ["--config_path"; "-c"] false
      (VStr "configs/train_config.yaml");
    mkOption "data_folder" ["--data_folder"; "-d"] false (VStr "data");
    mkOption "pretrained_model_path" ["--pretrained_model_path"; "-p"] false
      VNone;
    mkOption "resume" ["--resume"; "-r"] true (VBool false);
    mkOption "ft" ["--ft"; "-ft"] true (VBool false) ].

Definition consume_value (given : gmap string CliValue) (o : ClickOption)
    : CliValue :=
  default (opt_default o) (given !! opt_param o).

Definition params (given : gmap string CliValue) : gmap string CliValue :=
  list_to_map
    ((fun o => (opt_param o, consume_value given o)) <$> click_options).

(** The arguments of [main]. *)
Record Args : Type := mkArgs {
  config_path : string;
  data_folder : string;
  pretrained_model_path : option string;
  resume : bool;
  ft : bool
}.

Definition args_of (kw : gmap string CliValue) : option Args :=
  match kw !! "config_path", kw !! "data_folder",
        kw !! "pretrained_model_path", kw !! "resume", kw !! "ft" with
  | Some (VStr c), Some (VStr d), Some p, Some (VBool r), Some (VBool f) =>
      match p with
      | VNone => Some (mkArgs c d None r f)
      | VStr s => Some (mkArgs c d (Some s) r f)
      | VBool _ => None
      end
  | _, _, _, _, _ => None
  end.

(** ** [config.update(config_global)]

    A mapping argument overwrites and extends the dictionary.  Any other
    argument is iterated as a sequence of key/value pairs. *)

Module Dict.

Definition update_item (c : gmap string yaml) (item : yaml)
    : Res (gmap string yaml) :=
  match item with
  | YSeq [YStr k; v] => Ok (<[k := v]> c)
  | YSeq [YSeq _; _] | YSeq [YMap _; _] => Raise TypeError
  | YSeq [_; _] => Unmodelled          (* a key that is not a string *)
  | YSeq _ => Raise ValueError
  | YStr (String a (String b EmptyString)) =>
      Ok (<[String a EmptyString := YStr (String b EmptyString)]> c)
  | YStr _ => Raise ValueError
  | YMap m => if decide (size m = 2%nat) then Unmodelled else Raise ValueError
  | YNull | YBool _ | YInt _ | YFloat _ => Raise TypeError
  end.

Fixpoint update_items (c : gmap string yaml) (items : list yaml)
    : Res (gmap string yaml) :=
  match items with
  | [] => Ok c
  | item :: rest =>
      match update_item c item with
      | Ok c' => update_items c' rest
      | Raise e => Raise e
      | Unmodelled => Unmodelled
      end
  end.

Definition update (c : gmap string yaml) (other : yaml)
    : Res (gmap string yaml) :=
  match other with
  | YMap g => Ok (g ∪ c)
  | YSeq items => update_items c items
  | YStr EmptyString => Ok c
  | YStr _ => Raise ValueError
  | YNull | YBool _ | YInt _ | YFloat _ => Raise TypeError
  end.

(** [config.update(other)] on whatever the run configuration file held:
    only a dictionary has the method. *)
Definition update_method (config other : yaml)
    : Res (gmap string yaml) :=
  match config with
  | YMap c => update c other
  | _ => Raise AttributeError
  end.

(** [config[key]] *)
Definition subscript (c : gmap string yaml) (key : string) : M yaml :=
  lift (match c !! key with
        | Some v => Ok v
        | None => Raise (KeyError key)
        end).

End Dict.

(** ** Picking the checkpoint to resume from *)

Module Resume.

(** [int(x.stem.split("step=")[-1])] *)
Definition step_key (p : Path) : option Z :=
  PyStr.int (List.last (PyStr.split "step=" (Pathlib.stem p)) "").

(** The keys are computed for the whole list before anything is
    compared; the first name that is not a number stops the program. *)
Fixpoint keyed (l : list Path) : Res (list (Z * Path)) :=
  match l with
  | [] => Ok []
  | p :: l' =>
      match step_key p with
      | None => Raise ValueError
      | Some k =>
          match keyed l' with
          | Ok kl => Ok ((k, p) :: kl)
          | Raise e => Raise e
          | Unmodelled => Unmodelled
          end
      end
  end.

(** [sorted(..., reverse=True)] is a stable sort: among equal keys the
    scan order is kept.  [x] comes from in front of [s] in the original
    list. *)
Fixpoint insert_desc (x : Z * Path) (s : list (Z * Path))
    : list (Z * Path) :=
  match s with
  | [] => [x]
  | y :: s' => if (fst y <=? fst x)%Z then x :: s else y :: insert_desc x s'
  end.

Definition sorted_desc (l : list (Z * Path)) : list (Z * Path) :=
  foldr insert_desc [] l.

(** Lines 171-174: sort, then take element 0 if there is one. *)
Definition latest (l : list Path) : Res (option string) :=
  match keyed l with
  | Ok kl =>
      match sorted_desc kl with
      | (_, p) :: _ => Ok (Some (Pathlib.to_string p))
      | [] => Ok None
      end
  | Raise e => Raise e
  | Unmodelled => Unmodelled
  end.

End Resume.

(** ** [main] *)

Module Train.

Import Dict Fs.

(** [data_folder / "binary" / "vocab.yaml"] and
    [data_folder / "binary" / "global_config.yaml"], as handed to [open]. *)
Definition vocab_path (a : Args) : string :=
  Pathlib.to_string
    (Pathlib.of_string (data_folder a) // "binary" // "vocab.yaml").

Definition global_config_path (a : Args) : string :=
  Pathlib.to_string
    (Pathlib.of_string (data_folder a) // "binary" // "global_config.yaml").

(** Lines 64-73: the three documents and the merge. *)
Definition load_config (a : Args) : M (yaml * gmap string yaml) :=
  config ← load_yaml (config_path a);
  vocab ← load_yaml (vocab_path a);
  config_global ← load_yaml (global_config_path a);
  merged ← lift (update_method config config_global);
  mret (vocab, merged).

(** Lines 75-109: precision, seed, datasets, sampler, loaders. *)
Definition build_data (a : Args) (config : gmap string yaml) : M unit :=
  let folder := Pathlib.of_string (data_folder a) in
  precision ← subscript config "float32_matmul_precision";
  emit (EvSetMatmulPrecision precision);;
  seed ← subscript config "random_seed";
  emit (EvSeedEverything seed true);;
  num_workers ← subscript config "dataloader_workers";
  aug_size ← subscript config "data_augmentation_size";
  emit (EvMixedDataset Train aug_size (folder // "binary") "train");;
  emit (EvDatasetCall Train "get_label_types");;
  emit (EvDatasetCall Train "get_wav_lengths");;
  weights ← subscript config "oversampling_weights";
  batch_max_length ← subscript config "batch_max_length";
  aug_size' ← subscript config "data_augmentation_size";
  augmenting ← lift (Py.gt_zero aug_size');
  max_length ←
    lift (Py.truediv batch_max_length
            (if (augmenting : bool) then 2%positive else 1%positive));
  binning_length ← subscript config "binning_length";
  drop_last ← subscript config "drop_last";
  emit (EvSampler
          {| sa_oversampling_weights := weights;
             sa_max_length := max_length;
             sa_binning_length := binning_length;
             sa_drop_last := drop_last |});;
  persistent ← lift (Py.gt_zero num_workers);
  prefetching ← lift (Py.gt_zero num_workers);
  emit (EvDataLoader
          {| dl_dataset := Train;
             dl_batch_sampler := true;
             dl_batch_size := None;
             dl_shuffle := None;
             dl_num_workers := num_workers;
             dl_persistent_workers := persistent;
             dl_pin_memory := Some true;
             dl_prefetch_factor :=
               Some (if (prefetching : bool) then Some 2 else None) |});;
  emit (EvMixedDataset Valid (YInt 0) (folder // "binary") "valid");;
  persistent' ← lift (Py.gt_zero num_workers);
  emit (EvDataLoader
          {| dl_dataset := Valid;
             dl_batch_sampler := false;
             dl_batch_size := Some 1;
             dl_shuffle := Some false;
             dl_num_workers := num_workers;
             dl_persistent_workers := persistent';
             dl_pin_memory := None;
             dl_prefetch_factor := None |}).

(** Lines 112-119: the model task. *)
Definition build_model (vocab : yaml) (config : gmap string yaml) : M unit :=
  model ← subscript config "model";
  melspec ← subscript config "melspec_config";
  optimizer ← subscript config "optimizer_config";
  loss ← subscript config "loss_config";
  aug_size ← subscript config "data_augmentation_size";
  augmenting ← lift (Py.gt_zero aug_size);
  emit (EvTask
          {| ta_vocab := vocab;
             ta_model := model;
             ta_melspec_config := melspec;
             ta_optimizer_config := optimizer;
             ta_loss_config := loss;
             ta_augmentation := augmenting |}).

(** [pathlib.Path("ckpt") / config["model_name"]] *)
Definition ckpt_dir (config : gmap string yaml) : M Path :=
  model_name ← subscript config "model_name";
  lift (Py.path_div (Pathlib.of_string "ckpt") model_name).

(** Lines 121-146: the checkpoint directory and the two callbacks. *)
Definition build_callbacks (a : Args) (config : gmap string yaml)
    : M (option Callback) :=
  save_path ← ckpt_dir config;
  mkdir save_path;;
  checkpoint_callback ←
    (if negb (ft a) then
       keep ← subscript config "num_ckpt_keep";
       interval ← subscript config "val_check_interval";
       emit (EvModelCheckpoint
               {| mc_dirpath := Pathlib.to_string save_path;
                  mc_monitor := "step";
                  mc_mode := "max";
                  mc_save_top_k := keep;
                  mc_filename := "{step}";
                  mc_every_n_train_steps := interval;
                  mc_verbose := true |});;
       mret (Some CbModelCheckpoint)
     else mret None);
  emit EvProgressBar;;
  mret checkpoint_callback.

(** Lines 149-161: the trainer. *)
Definition build_trainer (config : gmap string yaml)
    (checkpoint_callback : option Callback) : M unit :=
  accelerator ← subscript config "accelerator";
  devices ← subscript config "devices";
  precision ← subscript config "precision";
  clip_val ← subscript config "gradient_clip_val";
  clip_algorithm ← subscript config "gradient_clip_algorithm";
  root_dir ← ckpt_dir config;
  interval ← subscript config "val_check_interval";
  optimizer ← subscript config "optimizer_config";
  total_steps ← lift (Py.getitem optimizer "total_steps");
  emit (EvTrainer
          {| tr_accelerator := accelerator;
             tr_devices := devices;
             tr_precision := precision;
             tr_gradient_clip_val := clip_val;
             tr_gradient_clip_algorithm := clip_algorithm;
             tr_default_root_dir := Pathlib.to_string root_dir;
             tr_val_check_interval := interval;
             tr_max_epochs := -1;
             tr_max_steps := total_steps;
             tr_callbacks := [checkpoint_callback; Some CbProgressBar] |}).

(** Lines 163-174: where training starts from. *)
Definition resolve_ckpt (a : Args) (config : gmap string yaml)
    : M (option string) :=
  match pretrained_model_path a with
  | Some path =>
      emit (EvLoadFromCheckpoint path);;
      emit EvLoadPretrained;;
      mret None
  | None =>
      if resume a then
        dir ← ckpt_dir config;
        ckpt_path_list ← rglob dir ".ckpt";
        lift (Resume.latest ckpt_path_list)
      else mret None
  end.

(** Lines 184-187: the weights-only checkpoint of finetuning mode. *)
Definition save_finetuned (a : Args) (config : gmap string yaml) : M unit :=
  if ft a then
    dir ← ckpt_dir config;
    emit (EvSaveCheckpoint (Pathlib.to_string dir +:+ ".ckpt") true)
  else mret tt.

(** Everything before line 163. *)
Definition prepare (a : Args) : M (gmap string yaml) :=
  emit (EvSetEnv "TORCH_CUDNN_V8_API_ENABLED" "1");;
  '(vocab, config) ← load_config a;
  build_data a config;;
  build_model vocab config;;
  checkpoint_callback ← build_callbacks a config;
  build_trainer config checkpoint_callback;;
  mret config.

Definition main (a : Args) : M unit :=
  config ← prepare a;
  ckpt_path ← resolve_ckpt a config;
  emit (EvFit {| fit_train_dataloaders := Train;
                 fit_val_dataloaders := Valid;
                 fit_ckpt_path := ckpt_path |});;
  save_finetuned a config.

(** The progress bar of lines 136-146: the metrics shown are those of
    the framework's bar, with the step counter added under ["steps"]
    when [show_steps] is on, and without ["v_num"].  [global_step] is
    the text [str(trainer.global_step)]. *)
Definition get_metrics (show_steps : bool) (global_step : string)
    (items : gmap string string) : gmap string string :=
  delete "v_num"
    (if show_steps then <["steps" := global_step]> items else items).

(** The command as [click] invokes it. *)
Definition command (given : gmap string CliValue) : option (M unit) :=
  main <$> args_of (params given).

End Train.

(** * Observing a run *)

(** ** The calls of one kind, in the order they were made *)

Module Calls.

Definition opens (tr : list Event) : list string :=
  omap (fun e => match e with EvOpen p => Some p | _ => None end) tr.

Definition datasets (tr : list Event) : list (Split * yaml * Path * string) :=
  omap (fun e => match e with
                 | EvMixedDataset d size folder prefix =>
                     Some (d, size, folder, prefix)
                 | _ => None
                 end) tr.

Definition samplers (tr : list Event) : list SamplerArgs :=
  omap (fun e => match e with EvSampler x => Some x | _ => None end) tr.

Definition loaders (tr : list Event) : list LoaderArgs :=
  omap (fun e => match e with EvDataLoader x => Some x | _ => None end) tr.

Definition tasks (tr : list Event) : list TaskArgs :=
  omap (fun e => match e with EvTask x => Some x | _ => None end) tr.

Definition mkdirs (tr : list Event) : list Path :=
  omap (fun e => match e with EvMkdir p => Some p | _ => None end) tr.

Definition checkpoint_callbacks (tr : list Event) : list CheckpointArgs :=
  omap (fun e => match e with EvModelCheckpoint x => Some x | _ => None end)
    tr.

Definition trainers (tr : list Event) : list TrainerArgs :=
  omap (fun e => match e with EvTrainer x => Some x | _ => None end) tr.

Definition pretrained_loads (tr : list Event) : list string :=
  omap (fun e => match e with EvLoadFromCheckpoint p => Some p | _ => None end)
    tr.

Definition pretrained_copies (tr : list Event) : list unit :=
  omap (fun e => match e with EvLoadPretrained => Some tt | _ => None end) tr.

Definition scans (tr : list Event) : list (Path * string) :=
  omap (fun e => match e with EvRglob d p => Some (d, p) | _ => None end) tr.

Definition fits (tr : list Event) : list FitArgs :=
  omap (fun e => match e with EvFit x => Some x | _ => None end) tr.

Definition saves (tr : list Event) : list (string * bool) :=
  omap (fun e => match e with
                 | EvSaveCheckpoint p weights_only => Some (p, weights_only)
                 | _ => None
                 end) tr.

End Calls.

Definition is_valid (d : Split) : bool :=
  match d with
  | Valid => true
  | Train => false
  end.

(** ** The three ways training can start *)

Inductive Mode : Type :=
| FromPretrained (path : string)
| ResumeLatest
| FromScratch.

(** The mode the command-line flags ask for. *)
Definition mode_of_flags (a : Args) : Mode :=
  match pretrained_model_path a with
  | Some path => FromPretrained path
  | None => if resume a then ResumeLatest else FromScratch
  end.


(** ** What a successful run emits, block by block *)

(** [config] is the run configuration updated with the global one. *)
Definition merged_config (a : Args) (w : World) (config : gmap string yaml)
    : Prop :=
  exists c other,
    docs w (config_path a) = Doc (YMap c)
    /\ docs w (Train.global_config_path a) = Doc other
    /\ Dict.update c other = Ok config.

Section Emitted.

Variable a : Args.
Variable config : gmap string yaml.

Definition folder : Path := Pathlib.of_string (data_folder a) // "binary".

Definition load_events : list Event :=
  [ EvOpen (config_path a);
    EvOpen (Train.vocab_path a);
    EvOpen (Train.global_config_path a) ].

Definition sampler_args (max_length : yaml) : SamplerArgs :=
  {| sa_oversampling_weights := config !!! "oversampling_weights";
     sa_max_length := max_length;
     sa_binning_length := config !!! "binning_length";
     sa_drop_last := config !!! "drop_last" |}.

Definition train_loader (workers : bool) : LoaderArgs :=
  {| dl_dataset := Train;
     dl_batch_sampler := true;
     dl_batch_size := None;
     dl_shuffle := None;
     dl_num_workers := config !!! "dataloader_workers";
     dl_persistent_workers := workers;
     dl_pin_memory := Some true;
     dl_prefetch_factor := Some (if workers then Some 2 else None) |}.

Definition valid_loader (workers : bool) : LoaderArgs :=
  {| dl_dataset := Valid;
     dl_batch_sampler := false;
     dl_batch_size := Some 1;
     dl_shuffle := Some false;
     dl_num_workers := config !!! "dataloader_workers";
     dl_persistent_workers := workers;
     dl_pin_memory := None;
     dl_prefetch_factor := None |}.

Definition data_events (workers : bool) (max_length : yaml) : list Event :=
  [ EvSetMatmulPrecision (config !!! "float32_matmul_precision");
    EvSeedEverything (config !!! "random_seed") true;
    EvMixedDataset Train (config !!! "data_augmentation_size") folder "train";
    EvDatasetCall Train "get_label_types";
    EvDatasetCall Train "get_wav_lengths";
    EvSampler (sampler_args max_length);
    EvDataLoader (train_loader workers);
    EvMixedDataset Valid (YInt 0) folder "valid";
    EvDataLoader (valid_loader workers) ].

Definition task_args (vocab : yaml) (augmenting : bool) : TaskArgs :=
  {| ta_vocab := vocab;
     ta_model := config !!! "model";
     ta_melspec_config := config !!! "melspec_config";
     ta_optimizer_config := config !!! "optimizer_config";
     ta_loss_config := config !!! "loss_config";
     ta_augmentation := augmenting |}.

Definition checkpoint_args (dir : Path) : CheckpointArgs :=
  {| mc_dirpath := Pathlib.to_string dir;
     mc_monitor := "step";
     mc_mode := "max";
     mc_save_top_k := config !!! "num_ckpt_keep";
     mc_filename := "{step}";
     mc_every_n_train_steps := config !!! "val_check_interval";
     mc_verbose := true |}.

Definition checkpoint_callback : option Callback :=
  if ft a then None else Some CbModelCheckpoint.

Definition callback_events (dir : Path) : list Event :=
  EvMkdir dir
    :: (if ft a then [] else [EvModelCheckpoint (checkpoint_args dir)])
    ++ [EvProgressBar].

Definition trainer_args (dir : Path) (total_steps : yaml) : TrainerArgs :=
  {| tr_accelerator := config !!! "accelerator";
     tr_devices := config !!! "devices";
     tr_precision := config !!! "precision";
     tr_gradient_clip_val := config !!! "gradient_clip_val";
     tr_gradient_clip_algorithm := config !!! "gradient_clip_algorithm";
     tr_default_root_dir := Pathlib.to_string dir;
     tr_val_check_interval := config !!! "val_check_interval";
     tr_max_epochs := -1;
     tr_max_steps := total_steps;
     tr_callbacks := [checkpoint_callback; Some CbProgressBar] |}.

Definition resolve_events (dir : Path) : list Event :=
  match pretrained_model_path a with
  | Some path => [EvLoadFromCheckpoint path; EvLoadPretrained]
  | None => if resume a then [EvRglob dir "*.ckpt"] else []
  end.

Definition fit_args (ckpt_path : option string) : FitArgs :=
  {| fit_train_dataloaders := Train;
     fit_val_dataloaders := Valid;
     fit_ckpt_path := ckpt_path |}.

Definition save_events (dir : Path) : list Event :=
  if ft a then [EvSaveCheckpoint (Pathlib.to_string dir +:+ ".ckpt") true]
  else [].

Definition prepare_events (vocab : yaml) (augmenting workers : bool)
    (max_length : yaml) (dir : Path) (total_steps : yaml) : list Event :=
  EvSetEnv "TORCH_CUDNN_V8_API_ENABLED" "1"
    :: load_events
    ++ data_events workers max_length
    ++ [EvTask (task_args vocab augmenting)]
    ++ callback_events dir
    ++ [EvTrainer (trainer_args dir total_steps)].

Definition finish_events (dir : Path) (ckpt_path : option string)
    : list Event :=
  resolve_events dir ++ [EvFit (fit_args ckpt_path)] ++ save_events dir.

(** The facts a run has established once the trainer is built. *)
Record Prepared (w : World) (vocab : yaml) (augmenting workers : bool)
    (max_length : yaml) (model_name : string) (total_steps : yaml)
    (es : list (Path * EntryKind)) : Prop := mkPrepared {
  pr_merged : merged_config a w config;
  pr_vocab : docs w (Train.vocab_path a) = Doc vocab;
  pr_aug_size :
    config !! "data_augmentation_size"
    = Some (config !!! "data_augmentation_size");
  pr_augmenting :
    Py.gt_zero (config !!! "data_augmentation_size") = Ok augmenting;
  pr_batch_max_length :
    config !! "batch_max_length" = Some (config !!! "batch_max_length");
  pr_max_length :
    Py.truediv (config !!! "batch_max_length")
      (if augmenting then 2%positive else 1%positive) = Ok max_length;
  pr_workers : Py.gt_zero (config !!! "dataloader_workers") = Ok workers;
  pr_model_name : config !! "model_name" = Some (YStr model_name);
  pr_keep :
    ft a = false ->
    config !! "num_ckpt_keep" = Some (config !!! "num_ckpt_keep");
  pr_total_steps :
    Py.getitem (config !!! "optimizer_config") "total_steps" = Ok total_steps;
  pr_mkdir :
    Fs.mkdir_chain (Pathlib.of_string "ckpt" // model_name) (entries w)
      (Pathlib.ancestors_and_self (Pathlib.of_string "ckpt" // model_name))
    = Ok es
}.

(** What [ckpt_path] is, given the entries of the file system at the
    time the trainer has been built. *)
Definition resolved (es : list (Path * EntryKind)) (dir : Path)
    (ckpt_path : option string) : Prop :=
  match pretrained_model_path a with
  | Some _ => ckpt_path = None
  | None =>
      if resume a
      then Resume.latest (Fs.glob_below dir ".ckpt" es) = Ok ckpt_path
      else ckpt_path = None
  end.

(** Lines 163-187, the part of [main] after the trainer is built. *)
Definition finish : M unit :=
  ckpt_path ← Train.resolve_ckpt a config;
  emit (EvFit (fit_args ckpt_path));;
  Train.save_finetuned a config.

End Emitted.

(** ** The checkpoint a scan result leads to

    [chosen found ckpt_path]: nothing when nothing was found; otherwise the
    first of the found entries that carry the greatest step number. *)
Definition chosen (found : list Path) (ckpt_path : option string) : Prop :=
  match found with
  | [] => ckpt_path = None
  | _ :: _ =>
      exists before p after k,
        found = before ++ p :: after
        /\ ckpt_path = Some (Pathlib.to_string p)
        /\ Resume.step_key p = Some k
        /\ (forall q, q ∈ before ->
              exists j, Resume.step_key q = Some j /\ j < k)
        /\ (forall q, q ∈ after ->
              exists j, Resume.step_key q = Some j /\ j <= k)
  end.

(** ** [v > 0] as a fact about the number [v]

    [greater_than_zero v b]: [v] is a number, and [b] tells whether it is
    greater than zero.  A float is greater than zero when it is plus
    infinity or denotes a positive rational; NaN is not. *)
Definition greater_than_zero (v : yaml) (b : bool) : Prop :=
  match v with
  | YBool x => b = x
  | YInt k => b = true <-> 0 < k
  | YFloat f =>
      b = true <->
      (f = S754_infinity false
       \/ exists q, Py.float_value f = Some q /\ (0 < q)%Q)
  | _ => False
  end.

(** ** The reading of the resume rule that filters by name

    The specification speaks of scanning for filenames matching a
    [step=<N>] pattern.  [Claimed.step_number] is that pattern: the stem
    contains [step=] and what follows it is a run of decimal digits.
    [Claimed.latest] keeps the matching names and takes the one with the
    greatest number. *)

Module Claimed.

Definition all_digits (s : string) : bool :=
  match PyStr.to_list s with
  | [] => false
  | l => forallb (fun c => bool_decide (is_Some (PyStr.digit_value c))) l
  end.

Definition step_number (p : Path) : option Z :=
  match PyStr.split "step=" (Pathlib.stem p) with
  | (_ :: _ :: _) as pieces =>
      let digits := List.last pieces "" in
      if all_digits digits then PyStr.int digits else None
  | _ => None
  end.

Fixpoint greatest (best : option (Z * Path)) (l : list Path)
    : option (Z * Path) :=
  match l with
  | [] => best
  | p :: l' =>
      match step_number p, best with
      | Some n, Some (m, _) =>
          greatest (if (m <? n)%Z then Some (n, p) else best) l'
      | Some n, None => greatest (Some (n, p)) l'
      | None, _ => greatest best l'
      end
  end.

Definition latest (l : list Path) : option string :=
  (fun np => Pathlib.to_string (snd np)) <$> greatest None l.

End Claimed.

(** ** A property of every event of a run, whatever its outcome *)

Definition emits {A} (P : Event -> Prop) (m : M A) : Prop :=
  forall s, exists new,
    trace (snd (m s)) = trace s ++ new /\ Forall P new.

(** The validation pipeline does not depend on the configuration. *)
Definition validation_fixed (e : Event) : Prop :=
  match e with
  | EvMixedDataset Valid size _ prefix => size = YInt 0 /\ prefix = "valid"
  | EvMixedDataset Train _ _ prefix => prefix = "train"
  | EvDataLoader l =>
      dl_dataset l = Valid ->
      dl_batch_size l = Some 1 /\ dl_shuffle l = Some false
      /\ dl_batch_sampler l = false
  | EvFit f => fit_val_dataloaders f = Valid
  | _ => True
  end.

(** A folder or model name that is a single path component. *)
Definition plain (s : string) : bool :=
  negb (String.eqb s "") && negb (String.eqb s ".")
  && forallb (fun c => negb (PyStr.ascii_eqb c "/")) (PyStr.to_list s).

(** ** Further properties of runs, whatever their outcome *)

(** Each flag-dependent call is made only under its flag. *)
Definition flag_gated (a : Args) (e : Event) : Prop :=
  match e with
  | EvModelCheckpoint _ => ft a = false
  | EvSaveCheckpoint _ weights_only => ft a = true /\ weights_only = true
  | EvLoadFromCheckpoint path => pretrained_model_path a = Some path
  | EvLoadPretrained => is_Some (pretrained_model_path a)
  | EvRglob _ pattern =>
      pretrained_model_path a = None /\ resume a = true /\ pattern = "*.ckpt"
  | _ => True
  end.

(** A document that cannot be loaded, and the exception for it. *)
Definition load_error (w : World) (path : string) : option exn :=
  match docs w path with
  | Missing => Some (FileNotFoundError path)
  | Malformed => Some (YAMLError path)
  | Doc _ => None
  end.

(** The first of the three documents, in the order they are opened, that
    cannot be loaded. *)
Definition first_load_error (a : Args) (w : World) : option exn :=
  match load_error w (config_path a) with
  | Some e => Some e
  | None =>
      match load_error w (Train.vocab_path a) with
      | Some e => Some e
      | None => load_error w (Train.global_config_path a)
      end
  end.

(** Nothing has been built: the events are the environment variable and
    the files opened. *)
Definition only_opens (tr : list Event) : Prop :=
  Forall (fun e => match e with
                   | EvSetEnv _ _ | EvOpen _ => True
                   | _ => False
                   end) tr.

Definition is_mapping (y : yaml) : bool :=
  match y with
  | YMap _ => true
  | _ => false
  end.

(** [None] and the numbers: values that cannot be iterated. *)
Definition not_iterable (y : yaml) : bool :=
  match y with
  | YNull | YBool _ | YInt _ | YFloat _ => true
  | _ => false
  end.

(** The keys of the configuration that every run reads, and the one
    more that a run without [--ft] reads. *)
Definition always_read : list string :=
  [ "float32_matmul_precision"; "random_seed"; "dataloader_workers";
    "data_augmentation_size"; "oversampling_weights"; "batch_max_length";
    "binning_length"; "drop_last"; "model"; "melspec_config";
    "optimizer_config"; "loss_config"; "model_name"; "accelerator";
    "devices"; "precision"; "gradient_clip_val"; "gradient_clip_algorithm";
    "val_check_interval" ].

Definition required_keys (a : Args) : list string :=
  always_read ++ (if ft a then [] else ["num_ckpt_keep"]).

(** [bool], [int] and [float] values. *)
Definition is_number (v : yaml) : Prop :=
  match v with
  | YBool _ | YInt _ | YFloat _ => True
  | _ => False
  end.

(** ** A sample run, used to check the statements below on data *)

Module Sample.

Definition run_config : gmap string yaml :=
  list_to_map
    [ ("model_name", YStr "m");
      ("float32_matmul_precision", YStr "high");
      ("random_seed", YInt 114514);
      ("dataloader_workers", YInt 2);
      ("data_augmentation_size", YInt 0);
      ("oversampling_weights", YSeq [YInt 1; YInt 1; YInt 1]);
      ("batch_max_length", YInt 100);
      ("binning_length", YInt 1000);
      ("drop_last", YBool false);
      ("model", YMap {[ "hidden_dims" := YInt 128 ]});
      ("melspec_config", YMap {[ "n_mels" := YInt 80 ]});
      ("optimizer_config", YMap {[ "total_steps" := YInt 100000 ]});
      ("loss_config", YMap ∅);
      ("num_ckpt_keep", YInt 5);
      ("val_check_interval", YInt 500);
      ("accelerator", YStr "auto");
      ("devices", YStr "auto");
      ("precision", YStr "bf16-mixed");
      ("gradient_clip_val",
       YFloat (S754_finite false 4503599627370496 (-53)));
      ("gradient_clip_algorithm", YStr "norm") ].

Definition global_config : gmap string yaml :=
  list_to_map
    [ ("melspec_config", YMap {[ "n_mels" := YInt 128 ]});
      ("data_augmentation_size", YInt 2);
      ("max_length", YInt 45) ].

Definition vocab : yaml := YMap {[ "<vocab_size>" := YInt 3 ]}.

Definition documents (path : string) : FileContent :=
  if String.eqb path "configs/train_config.yaml" then Doc (YMap run_config)
  else if String.eqb path "data/binary/vocab.yaml" then Doc vocab
  else if String.eqb path "data/binary/global_config.yaml"
       then Doc (YMap global_config)
  else Missing.

Definition file (s : string) : Path * EntryKind := (Pathlib.of_string s, KFile).
Definition dir (s : string) : Path * EntryKind := (Pathlib.of_string s, KDir).

(** A checkpoint directory after some training. *)
Definition trained : World :=
  {| docs := documents;
     entries := [ dir "ckpt"; dir "ckpt/m";
                  file "ckpt/m/step=500.ckpt";
                  file "ckpt/m/step=1500.ckpt";
                  file "ckpt/m/step=1000.ckpt" ] |}.

(** Nothing has been trained yet. *)
Definition fresh : World := {| docs := documents; entries := [] |}.

Definition defaults : Args :=
  mkArgs "configs/train_config.yaml" "data" None false false.

End Sample.

(** Command lines and outcomes on the sample worlds. *)

Module Run.

Definition resuming : Args :=
  mkArgs "configs/train_config.yaml" "data" None true false.

Definition finetuning : Args :=
  mkArgs "configs/train_config.yaml" "data" None false true.

Definition pretrained_and_resume : Args :=
  mkArgs "configs/train_config.yaml" "data" (Some "base.ckpt") true false.

(** The merged configuration of the sample documents. *)
Definition config : gmap string yaml :=
  Sample.global_config ∪ Sample.run_config.

Definition outcome (a : Args) (w : World) : State :=
  snd (Train.main a (initial w)).

Definition prepared (a : Args) (w : World) : State :=
  snd (Train.prepare a (initial w)).

(** A checkpoint directory with a name that carries no [step=]. *)
Definition renamed : World :=
  {| docs := Sample.documents;
     entries := [ Sample.dir "ckpt"; Sample.dir "ckpt/m";
                  Sample.file "ckpt/m/step=3.ckpt";
                  Sample.file "ckpt/m/7.ckpt" ] |}.

(** A checkpoint directory after a name collision: the framework has
    written a second file for the same step with a version suffix. *)
Definition versioned : World :=
  {| docs := Sample.documents;
     entries := [ Sample.dir "ckpt"; Sample.dir "ckpt/m";
                  Sample.file "ckpt/m/step=100.ckpt";
                  Sample.file "ckpt/m/step=100-v1.ckpt" ] |}.

(** A run configuration with an odd batch length above 2^53 and no
    augmentation; the global configuration does not set the augmentation
    size. *)
Definition long_batches : World :=
  {| docs := fun path =>
       if String.eqb path "configs/train_config.yaml"
       then Doc (YMap (<["batch_max_length" := YInt 9007199254740993]>
                         Sample.run_config))
       else if String.eqb path "data/binary/global_config.yaml"
       then Doc (YMap (delete "data_augmentation_size" Sample.global_config))
       else Sample.documents path;
     entries := [] |}.

End Run.

(** Worlds for the edges of the input. *)

Module Edge.

Definition with_global_config (y : yaml) (path : string) : FileContent :=
  if String.eqb path "data/binary/global_config.yaml" then Doc y
  else Sample.documents path.

(** An empty global configuration file: [yaml.safe_load] gives [None]. *)
Definition empty_global_config : World :=
  {| docs := with_global_config YNull; entries := [] |}.

(** No vocabulary has been written. *)
Definition no_vocab : World :=
  {| docs := fun path =>
               if String.eqb path "data/binary/vocab.yaml" then Missing
               else Sample.documents path;
     entries := [Sample.dir "ckpt"] |}.

End Edge.

(** * Checks on data *)

Example split_step_plain : PyStr.split "step=" "step=120" = [""; "120"].
Proof. reflexivity. Qed.

Example split_step_absent : PyStr.split "step=" "epoch7" = ["epoch7"].
Proof. reflexivity. Qed.

Example split_step_twice :
  PyStr.split "step=" "a-step=1-step=22" = ["a-"; "1-"; "22"].
Proof. reflexivity. Qed.

Example int_plain : PyStr.int "120" = Some 120.
Proof. reflexivity. Qed.

Example int_grouped : PyStr.int " +1_000 " = Some 1000.
Proof. reflexivity. Qed.

Example int_versioned : PyStr.int "120-v1" = None.
Proof. reflexivity. Qed.

Example int_empty : PyStr.int "" = None.
Proof. reflexivity. Qed.

Example path_data_vocab :
  Pathlib.to_string (Pathlib.of_string "data" // "binary" // "vocab.yaml")
  = "data/binary/vocab.yaml".
Proof. reflexivity. Qed.

Example path_trailing_slash :
  Pathlib.to_string (Pathlib.of_string "./corpus//x/" // "binary")
  = "corpus/x/binary".
Proof. reflexivity. Qed.

Example path_anchored_operand :
  Pathlib.to_string (Pathlib.of_string "ckpt" // "/srv/run") = "/srv/run".
Proof. reflexivity. Qed.

Example stem_ckpt :
  Pathlib.stem (Pathlib.of_string "ckpt/m/step=120.ckpt") = "step=120".
Proof. reflexivity. Qed.

Example stem_dotfile :
  Pathlib.stem (Pathlib.of_string "ckpt/m/.ckpt") = ".ckpt".
Proof. reflexivity. Qed.

Example truediv_int :
  Py.truediv (YInt 100) 2
  = Ok (YFloat (S754_finite false 7036874417766400 (-47)))
  /\ Py.float_value (S754_finite false 7036874417766400 (-47))
     = Some (7036874417766400 # 140737488355328)
  /\ (7036874417766400 # 140737488355328 == 50)%Q.
Proof. repeat split; reflexivity. Qed.

Example truediv_rounds :
  Py.truediv (YInt (2 ^ 53 + 1)) 1
  = Ok (YFloat (S754_finite false 4503599627370496 1))
  /\ Py.float_value (S754_finite false 4503599627370496 1)
     = Some (inject_Z (2 ^ 53)).
Proof. split; reflexivity. Qed.

Example truediv_greatest_float :
  Py.truediv (YInt (2 ^ 1024 - 2 ^ 970 - 1)) 1
  = Ok (YFloat (S754_finite false 9007199254740991 971)).
Proof. reflexivity. Qed.

Example truediv_overflow :
  Py.truediv (YInt (10 ^ 400)) 1 = Raise OverflowError
  /\ Py.truediv (YInt (2 ^ 1024 - 2 ^ 970)) 1 = Raise OverflowError
  /\ Py.truediv (YInt (2 ^ 1024 - 2 ^ 970)) 2
     = Ok (YFloat (S754_finite false 4503599627370496 971)).
Proof. repeat split; reflexivity. Qed.

Example truediv_float :
  Py.truediv (YFloat (S754_finite false 4503599627370496 (-53))) 2
  = Ok (YFloat (S754_finite false 4503599627370496 (-54)))
  /\ Py.truediv (YFloat (S754_finite false 4503599627370496 (-53))) 1
     = Ok (YFloat (S754_finite false 4503599627370496 (-53)))
  /\ Py.truediv (YFloat (S754_infinity false)) 2
     = Ok (YFloat (S754_infinity false)).
Proof. repeat split; reflexivity. Qed.

Example truediv_str : Py.truediv (YStr "100") 2 = Raise TypeError.
Proof. reflexivity. Qed.

Example gt_zero_float :
  Py.gt_zero (YFloat (S754_finite false 4503599627370496 (-53))) = Ok true
  /\ Py.gt_zero (YFloat S754_nan) = Ok false
  /\ Py.gt_zero (YFloat (S754_zero false)) = Ok false
  /\ Py.gt_zero (YBool true) = Ok true.
Proof. repeat split; reflexivity. Qed.

Example int_separators :
  PyStr.int (String (ascii_of_nat 28) "5") = None
  /\ PyStr.int (String (ascii_of_nat 11) "5") = Some 5.
Proof. split; reflexivity. Qed.

Example latest_three :
  Resume.latest
    [Pathlib.of_string "ckpt/m/step=100.ckpt";
     Pathlib.of_string "ckpt/m/step=2500.ckpt";
     Pathlib.of_string "ckpt/m/step=900.ckpt"]
  = Ok (Some "ckpt/m/step=2500.ckpt").
Proof. reflexivity. Qed.

Example latest_none : Resume.latest [] = Ok None.
Proof. reflexivity. Qed.

Example latest_versioned :
  Resume.latest
    [Pathlib.of_string "ckpt/m/step=100.ckpt";
     Pathlib.of_string "ckpt/m/step=100-v1.ckpt"]
  = Raise ValueError.
Proof. reflexivity. Qed.

Example metrics_shown :
  Train.get_metrics true "1200" {[ "loss" := "0.31"; "v_num" := "3" ]}
  = {[ "loss" := "0.31"; "steps" := "1200" ]}.
Proof. reflexivity. Qed.

Example update_from_pairs :
  Dict.update {[ "a" := YInt 1 ]} (YSeq [YSeq [YStr "b"; YInt 2]; YStr "cd"])
  = Ok {[ "a" := YInt 1; "b" := YInt 2; "c" := YStr "d" ]}.
Proof. reflexivity. Qed.

Example update_from_none :
  Dict.update {[ "a" := YInt 1 ]} YNull = Raise TypeError.
Proof. reflexivity. Qed.

(** * Reasoning about runs *)

Section Runs.

Context {A B : Type}.

Lemma bind_ok (m : M A) (k : A -> M B) s b s2 :
  (m ≫= k) s = (Ok b, s2) ->
  exists a s1, m s = (Ok a, s1) /\ k a s1 = (Ok b, s2).
Proof.
  unfold mbind, M_bind.
  destruct (m s) as [[a | e |] s1]; intros H; try discriminate; eauto.
Qed.

Lemma bind_run (m : M A) (k : A -> M B) s a s1 :
  m s = (Ok a, s1) -> (m ≫= k) s = k a s1.
Proof. unfold mbind, M_bind. intros ->. reflexivity. Qed.

Lemma lift_ok (r : Res A) s a s1 :
  lift r s = (Ok a, s1) -> r = Ok a /\ s1 = s.
Proof. unfold lift. intros H. injection H as -> ->. auto. Qed.

Lemma ret_ok (x : A) s a s1 :
  mret (M := M) x s = (Ok a, s1) -> a = x /\ s1 = s.
Proof. unfold mret, M_ret. intros H. injection H as -> ->. auto. Qed.

End Runs.

Lemma emit_ok e s u s1 :
  emit e s = (Ok u, s1) ->
  s1 = {| world := world s; trace := trace s ++ [e] |}.
Proof. unfold emit. intros H. injection H as _ <-. reflexivity. Qed.

Lemma subscript_ok c key s v s1 :
  Dict.subscript c key s = (Ok v, s1) ->
  c !! key = Some (c !!! key) /\ v = c !!! key /\ s1 = s.
Proof.
  unfold Dict.subscript. intros H. apply lift_ok in H as [H ->].
  destruct (c !! key) as [x |] eqn:E; [| discriminate].
  injection H as ->. rewrite (lookup_total_correct c key v E). auto.
Qed.

Lemma load_yaml_ok path s y s1 :
  Fs.load_yaml path s = (Ok y, s1) ->
  docs (world s) path = Doc y
  /\ s1 = {| world := world s; trace := trace s ++ [EvOpen path] |}.
Proof.
  unfold Fs.load_yaml. destruct (docs (world s) path); intros H;
    try discriminate. injection H as -> <-. auto.
Qed.

Lemma mkdir_ok p s u s1 :
  Fs.mkdir p s = (Ok u, s1) ->
  exists es,
    Fs.mkdir_chain p (entries (world s)) (Pathlib.ancestors_and_self p) = Ok es
    /\ s1 = {| world := {| docs := docs (world s); entries := es |};
               trace := trace s ++ [EvMkdir p] |}.
Proof.
  unfold Fs.mkdir.
  destruct (Fs.mkdir_chain _ _ _) as [es | e |]; intros H; try discriminate.
  injection H as _ <-. eauto.
Qed.

Lemma rglob_ok dir suffix s l s1 :
  Fs.rglob dir suffix s = (Ok l, s1) ->
  l = Fs.glob_below dir suffix (entries (world s))
  /\ s1 = {| world := world s;
             trace := trace s ++ [EvRglob dir ("*" +:+ suffix)] |}.
Proof. unfold Fs.rglob. intros H. injection H as <- <-. auto. Qed.

Lemma ckpt_dir_ok config s d s1 :
  Train.ckpt_dir config s = (Ok d, s1) ->
  exists model_name,
    config !! "model_name" = Some (YStr model_name)
    /\ d = Pathlib.of_string "ckpt" // model_name /\ s1 = s.
Proof.
  unfold Train.ckpt_dir. intros H.
  apply bind_ok in H as (v & s' & H1 & H2).
  apply subscript_ok in H1 as (Hk & -> & ->).
  apply lift_ok in H2 as [H2 ->].
  destruct (config !!! "model_name") as [| | | | name | |] eqn:E;
    try discriminate.
  injection H2 as <-. eauto.
Qed.

Lemma ckpt_dir_run config model_name s :
  config !! "model_name" = Some (YStr model_name) ->
  Train.ckpt_dir config s = (Ok (Pathlib.of_string "ckpt" // model_name), s).
Proof.
  intros H. unfold Train.ckpt_dir, Dict.subscript, lift, mbind, M_bind.
  rewrite H. reflexivity.
Qed.

(** One step of taking a successful run apart. *)
Ltac run_step :=
  match goal with
  | H : (_ ≫= _) _ = (Ok _, _) |- _ =>
      let a := fresh "x" in
      let s := fresh "s" in
      let H1 := fresh "Hrun" in
      apply bind_ok in H as (a & s & H1 & H); cbv beta in H
  | H : emit _ _ = (Ok _, _) |- _ => apply emit_ok in H; subst
  | H : lift _ _ = (Ok _, _) |- _ =>
      let E := fresh "Hval" in apply lift_ok in H as [E ->]
  | H : mret _ _ = (Ok _, _) |- _ => apply ret_ok in H as [? ?]; subst
  | H : Dict.subscript _ _ _ = (Ok _, _) |- _ =>
      let E := fresh "Hkey" in apply subscript_ok in H as (E & -> & ->)
  | H : Fs.load_yaml _ _ = (Ok _, _) |- _ =>
      let E := fresh "Hdoc" in apply load_yaml_ok in H as (E & ->)
  | H : Fs.mkdir _ _ = (Ok _, _) |- _ =>
      let es := fresh "es" in
      let E := fresh "Hmkdir" in
      apply mkdir_ok in H as (es & E & ->)
  | H : Fs.rglob _ _ _ = (Ok _, _) |- _ => apply rglob_ok in H as (-> & ->)
  | H : Train.ckpt_dir _ _ = (Ok _, _) |- _ =>
      let mn := fresh "model_name" in
      let E := fresh "Hname" in
      apply ckpt_dir_ok in H as (mn & E & -> & ->)
  end.

Ltac run_inv := repeat (run_step; cbn [world trace] in * ).

(** Two evaluations of the same expression gave the same value. *)
Ltac same_value :=
  repeat match goal with
         | H1 : ?r = Ok ?x, H2 : ?r = Ok ?y |- _ =>
             rewrite H1 in H2; injection H2 as <-
         | H1 : ?m !! ?k = Some (YStr ?x),
           H2 : ?m !! ?k = Some (YStr ?y) |- _ =>
             rewrite H1 in H2; injection H2 as <-
         end.

Ltac flat_trace := rewrite <- ?app_assoc; cbn [app].

Lemma load_config_ok a s vocab config s1 :
  Train.load_config a s = (Ok (vocab, config), s1) ->
  merged_config a (world s) config
  /\ docs (world s) (Train.vocab_path a) = Doc vocab
  /\ s1 = {| world := world s; trace := trace s ++ load_events a |}.
Proof.
  unfold Train.load_config. intros H. run_inv.
  injection H as <- <-.
  destruct x as [| | | | | | c]; try discriminate.
  split; [unfold merged_config; eauto |]. split; [assumption |].
  f_equal. flat_trace. reflexivity.
Qed.

Lemma build_data_ok a config s u s1 :
  Train.build_data a config s = (Ok u, s1) ->
  exists augmenting workers max_length,
    config !! "data_augmentation_size"
    = Some (config !!! "data_augmentation_size")
    /\ Py.gt_zero (config !!! "data_augmentation_size") = Ok augmenting
    /\ config !! "batch_max_length" = Some (config !!! "batch_max_length")
    /\ Py.truediv (config !!! "batch_max_length")
         (if augmenting then 2%positive else 1%positive) = Ok max_length
    /\ Py.gt_zero (config !!! "dataloader_workers") = Ok workers
    /\ s1 = {| world := world s;
               trace := trace s ++ data_events a config workers max_length |}.
Proof.
  unfold Train.build_data. intros H. run_inv. same_value.
  eexists _, _, _. repeat (split; [eassumption |]).
  f_equal. flat_trace. reflexivity.
Qed.

Lemma build_model_ok vocab config s u s1 :
  Train.build_model vocab config s = (Ok u, s1) ->
  exists augmenting,
    Py.gt_zero (config !!! "data_augmentation_size") = Ok augmenting
    /\ s1 = {| world := world s;
               trace :=
                 trace s ++ [EvTask (task_args config vocab augmenting)] |}.
Proof.
  unfold Train.build_model. intros H. run_inv.
  eexists. split; [eassumption |]. reflexivity.
Qed.

Lemma build_callbacks_ok a config s cb s1 :
  Train.build_callbacks a config s = (Ok cb, s1) ->
  exists model_name es,
    let dir := Pathlib.of_string "ckpt" // model_name in
    config !! "model_name" = Some (YStr model_name)
    /\ Fs.mkdir_chain dir (entries (world s)) (Pathlib.ancestors_and_self dir)
       = Ok es
    /\ (ft a = false ->
        config !! "num_ckpt_keep" = Some (config !!! "num_ckpt_keep"))
    /\ cb = checkpoint_callback a
    /\ s1 = {| world := {| docs := docs (world s); entries := es |};
               trace := trace s ++ callback_events a config dir |}.
Proof.
  unfold Train.build_callbacks, callback_events, checkpoint_callback.
  intros H. run_inv.
  destruct (ft a); cbn [negb] in *; run_inv;
    (eexists _, _; cbn zeta;
     split; [eassumption |]; split; [eassumption |];
     split; [first [discriminate | intros _; assumption] |];
     split; [reflexivity |];
     f_equal; flat_trace; reflexivity).
Qed.

Lemma build_trainer_ok config cb s u s1 a :
  cb = checkpoint_callback a ->
  Train.build_trainer config cb s = (Ok u, s1) ->
  exists model_name total_steps,
    config !! "model_name" = Some (YStr model_name)
    /\ Py.getitem (config !!! "optimizer_config") "total_steps" = Ok total_steps
    /\ s1 = {| world := world s;
               trace := trace s ++
                 [EvTrainer (trainer_args a config
                               (Pathlib.of_string "ckpt" // model_name)
                               total_steps)] |}.
Proof.
  unfold Train.build_trainer. intros -> H. run_inv.
  eexists _, _. split; [eassumption |]. split; [eassumption |]. reflexivity.
Qed.

(** ** From the trainer to the end *)

Lemma main_prepare_finish a : Train.main a = Train.prepare a ≫= finish a.
Proof. reflexivity. Qed.

Lemma finish_ok a config model_name s u s1 :
  config !! "model_name" = Some (YStr model_name) ->
  finish a config s = (Ok u, s1) ->
  let dir := Pathlib.of_string "ckpt" // model_name in
  exists ckpt_path,
    resolved a (entries (world s)) dir ckpt_path
    /\ s1 = {| world := world s;
               trace := trace s ++ finish_events a dir ckpt_path |}.
Proof.
  unfold finish, Train.resolve_ckpt, Train.save_finetuned, resolved,
    finish_events, resolve_events, save_events.
  intros Hname H. cbn zeta.
  destruct (pretrained_model_path a) as [path |]; [| destruct (resume a)];
    destruct (ft a); run_inv; same_value;
    (eexists; split; [first [reflexivity | eassumption] |]);
    destruct s; cbn [world trace]; f_equal; flat_trace;
    rewrite ?app_nil_r; reflexivity.
Qed.

Lemma finish_run a config model_name s ckpt_path :
  config !! "model_name" = Some (YStr model_name) ->
  let dir := Pathlib.of_string "ckpt" // model_name in
  resolved a (entries (world s)) dir ckpt_path ->
  finish a config s
  = (Ok tt, {| world := world s;
               trace := trace s ++ finish_events a dir ckpt_path |}).
Proof.
  intros Hname dir Hres. subst dir. revert Hres.
  unfold finish, Train.resolve_ckpt, Train.save_finetuned, resolved,
    finish_events, resolve_events, save_events.
  intros Hres.
  destruct (pretrained_model_path a) as [path |]; [| destruct (resume a)];
    destruct (ft a); subst;
    unfold Fs.rglob, Train.ckpt_dir, Dict.subscript, Py.path_div, lift, emit,
      mret, M_ret, mbind, M_bind;
    rewrite ?Hname; cbn [world trace]; rewrite ?Hres; cbn [world trace].
  all: do 2 f_equal; flat_trace; reflexivity.
Qed.

Lemma prepare_ok a w config s1 :
  Train.prepare a (initial w) = (Ok config, s1) ->
  exists vocab augmenting workers max_length model_name total_steps es,
    Prepared a config w vocab augmenting workers max_length model_name
      total_steps es
    /\ s1 = {| world := {| docs := docs w; entries := es |};
               trace := prepare_events a config vocab augmenting workers
                          max_length (Pathlib.of_string "ckpt" // model_name)
                          total_steps |}.
Proof.
  unfold Train.prepare. intros H.
  apply bind_ok in H as (? & s & He & H). apply emit_ok in He. subst s.
  apply bind_ok in H as ([vocab cfg] & s & Hl & H).
  apply load_config_ok in Hl as (Hcfg & Hvocab & ->). cbn [world trace] in *.
  apply bind_ok in H as (? & s & Hd & H).
  apply build_data_ok in Hd
    as (aug & workers & maxlen & Hsize & Haug & Hbml & Hmax & Hw & ->).
  apply bind_ok in H as (? & s & Hm & H).
  apply build_model_ok in Hm as (aug' & Haug' & ->).
  apply bind_ok in H as (cb & s & Hc & H).
  apply build_callbacks_ok in Hc as (mn & es & Hname & Hmk & Hkeep & -> & ->).
  apply bind_ok in H as (? & s & Ht & H).
  apply (build_trainer_ok _ _ _ _ _ a eq_refl) in Ht
    as (mn' & ts & Hname' & Hts & ->).
  apply ret_ok in H as [-> ->]. cbn [world trace initial] in *.
  same_value.
  exists vocab, aug, workers, maxlen, mn, ts, es.
  split; [constructor; assumption |].
  reflexivity.
Qed.

(** A successful run of [main], in full. *)
Lemma main_ok a w u s :
  Train.main a (initial w) = (Ok u, s) ->
  exists config vocab augmenting workers max_length model_name total_steps es
         ckpt_path,
    let dir := Pathlib.of_string "ckpt" // model_name in
    Prepared a config w vocab augmenting workers max_length model_name
      total_steps es
    /\ resolved a es dir ckpt_path
    /\ world s = {| docs := docs w; entries := es |}
    /\ trace s
       = (prepare_events a config vocab augmenting workers max_length dir
            total_steps
          ++ finish_events a dir ckpt_path)%list.
Proof.
  rewrite main_prepare_finish. intros H.
  apply bind_ok in H as (config & s1 & Hp & Hf).
  apply prepare_ok in Hp
    as (vocab & aug & workers & maxlen & mn & ts & es & Hprep & ->).
  apply (finish_ok _ _ mn) in Hf as (ckpt & Hres & ->);
    [| exact (pr_model_name _ _ _ _ _ _ _ _ _ _ Hprep)].
  exists config, vocab, aug, workers, maxlen, mn, ts, es, ckpt.
  cbn [world trace] in *. auto.
Qed.

(** Once the trainer is built, the rest of [main] runs through whenever
    the checkpoint to resume from can be determined. *)
Lemma main_run a w config s1 model_name ckpt_path :
  Train.prepare a (initial w) = (Ok config, s1) ->
  config !! "model_name" = Some (YStr model_name) ->
  let dir := Pathlib.of_string "ckpt" // model_name in
  resolved a (entries (world s1)) dir ckpt_path ->
  Train.main a (initial w)
  = (Ok tt, {| world := world s1;
               trace := trace s1 ++ finish_events a dir ckpt_path |}).
Proof.
  intros Hp Hname dir Hres.
  rewrite main_prepare_finish, (bind_run _ _ _ _ _ Hp).
  apply finish_run; assumption.
Qed.

(** ** The stable descending sort and its first element *)

Section SortedHead.

Implicit Types (x y : Z * Path) (kl : list (Z * Path)).

Lemma insert_desc_head x kl :
  head (Resume.insert_desc x kl)
  = match head kl with
    | Some y => if (fst y <=? fst x)%Z then Some x else Some y
    | None => Some x
    end.
Proof.
  destruct kl as [| y kl']; cbn; [reflexivity |].
  destruct (fst y <=? fst x)%Z; reflexivity.
Qed.

(** The first element of the sorted list is the earliest of the
    elements with the greatest key. *)
Lemma sorted_desc_head kl :
  kl <> [] ->
  exists before x after,
    kl = before ++ x :: after
    /\ head (Resume.sorted_desc kl) = Some x
    /\ (forall y, y ∈ before -> (fst y < fst x)%Z)
    /\ (forall y, y ∈ after -> (fst y <= fst x)%Z).
Proof.
  induction kl as [| x kl IH]; [congruence |]. intros _.
  destruct kl as [| x' kl'].
  - exists [], x, []. cbn. repeat split; intros y Hy; inversion Hy.
  - destruct IH as (before & h & after & Hkl & Hhead & Hlt & Hle);
      [congruence |].
    change (Resume.sorted_desc (x :: x' :: kl'))
      with (Resume.insert_desc x (Resume.sorted_desc (x' :: kl'))).
    rewrite insert_desc_head, Hhead.
    destruct (fst h <=? fst x)%Z eqn:E.
    + apply Z.leb_le in E.
      exists [], x, (x' :: kl'). cbn [app]. repeat split.
      * intros y Hy. inversion Hy.
      * intros y Hy. rewrite Hkl in Hy.
        apply elem_of_app in Hy as [Hy | Hy].
        -- specialize (Hlt y Hy). lia.
        -- apply elem_of_cons in Hy as [-> | Hy]; [lia |].
           specialize (Hle y Hy). lia.
    + apply Z.leb_gt in E.
      exists (x :: before), h, after. rewrite Hkl. cbn [app]. repeat split.
      * intros y Hy. apply elem_of_cons in Hy as [-> | Hy]; auto.
      * assumption.
Qed.

End SortedHead.

Lemma keyed_ok (l : list Path) :
  Forall (fun p => is_Some (Resume.step_key p)) l ->
  exists kl,
    Resume.keyed l = Ok kl
    /\ snd <$> kl = l
    /\ Forall (fun kp => Resume.step_key (snd kp) = Some (fst kp)) kl.
Proof.
  induction 1 as [| p l [k Hk] _ (kl & Hkl & Hsnd & Hall)]; cbn.
  - exists []. repeat split. constructor.
  - rewrite Hk, Hkl. exists ((k, p) :: kl). cbn. rewrite Hsnd.
    repeat split. constructor; assumption.
Qed.

Lemma keyed_inv (l : list Path) kl :
  Resume.keyed l = Ok kl ->
  snd <$> kl = l
  /\ Forall (fun kp => Resume.step_key (snd kp) = Some (fst kp)) kl.
Proof.
  revert kl. induction l as [| p l IH]; cbn; intros kl H.
  - injection H as <-. split; constructor.
  - destruct (Resume.step_key p) as [k |] eqn:Hk; [| discriminate].
    destruct (Resume.keyed l) as [kl' | |]; try discriminate.
    injection H as <-. destruct (IH kl' eq_refl) as [Hsnd Hall].
    cbn. rewrite Hsnd. split; [reflexivity |]. constructor; assumption.
Qed.

(** Whenever [latest] returns, it returns the chosen entry. *)
Lemma latest_chosen (l : list Path) ckpt_path :
  Resume.latest l = Ok ckpt_path -> chosen l ckpt_path.
Proof.
  unfold Resume.latest.
  destruct (Resume.keyed l) as [kl | |] eqn:Hkeyed; try discriminate.
  apply keyed_inv in Hkeyed as [Hsnd Hall].
  destruct kl as [| kp kl'].
  - cbn in *. subst l. intros H. injection H as <-. reflexivity.
  - destruct (sorted_desc_head (kp :: kl'))
      as (before & [k p] & after & Hsplit & Hhead & Hlt & Hle); [congruence |].
    destruct (Resume.sorted_desc (kp :: kl')) as [| [k0 p0] rest];
      [discriminate |].
    cbn in Hhead. injection Hhead as -> ->.
    intros H. injection H as <-.
    rewrite Hsplit in Hsnd, Hall.
    rewrite fmap_app, fmap_cons in Hsnd. cbn [snd] in Hsnd.
    apply Forall_app in Hall as [Hbefore Hrest].
    apply Forall_cons in Hrest as [Hp Hafter]. cbn [fst snd] in Hp.
    subst l. unfold chosen.
    destruct (snd <$> before) eqn:Eb; cbn [app];
      (exists (snd <$> before), p, (snd <$> after), k; rewrite ?Eb; cbn [app];
       split; [reflexivity |]; split; [reflexivity |]; split; [assumption |];
       rewrite <- ?Eb; split; intros q Hq;
       apply list_elem_of_fmap in Hq as ([j q'] & -> & Hin); cbn [snd];
       exists j; (split;
         [ first [ exact (proj1 (Forall_forall _ _) Hbefore _ Hin)
                 | exact (proj1 (Forall_forall _ _) Hafter _ Hin) ]
         | first [ exact (Hlt _ Hin) | exact (Hle _ Hin) ] ])).
Qed.

(** When every name found is a step number, [latest] returns. *)
Lemma latest_total (l : list Path) :
  Forall (fun p => is_Some (Resume.step_key p)) l ->
  exists ckpt_path, Resume.latest l = Ok ckpt_path.
Proof.
  intros H. destruct (keyed_ok l H) as (kl & Hkl & _).
  unfold Resume.latest. rewrite Hkl.
  destruct (Resume.sorted_desc kl) as [| [k p] rest]; eauto.
Qed.

(** ** Creating the checkpoint directory *)

Lemma path_eqb_refl p : Pathlib.eqb p p = true.
Proof.
  unfold Pathlib.eqb. rewrite String.eqb_refl, bool_decide_eq_true_2; auto.
Qed.

Lemma fs_lookup_app es new p k :
  Fs.lookup es p = Some k -> Fs.lookup (es ++ new) p = Some k.
Proof.
  unfold Fs.lookup. induction es as [| e es IH]; cbn; [discriminate |].
  destruct (Pathlib.eqb (fst e) p); auto.
Qed.

Lemma fs_lookup_new es p :
  Fs.lookup es p = None -> Fs.lookup (es ++ [(p, KDir)]) p = Some KDir.
Proof.
  unfold Fs.lookup. induction es as [| e es IH]; cbn.
  - rewrite path_eqb_refl. reflexivity.
  - destruct (Pathlib.eqb (fst e) p); [discriminate | auto].
Qed.

(** [mkdir] only adds directories, and afterwards every directory on the
    way to the target is there. *)
Lemma mkdir_chain_ok target ps : forall es es',
  Fs.mkdir_chain target es ps = Ok es' ->
  exists new,
    es' = es ++ new
    /\ Forall (fun e => snd e = KDir) new
    /\ forall p, p ∈ ps -> Fs.lookup es' p = Some KDir.
Proof.
  induction ps as [| p ps IH]; cbn; intros es es' H.
  - injection H as <-. exists []. rewrite app_nil_r.
    repeat split; [constructor |]. intros p Hp. inversion Hp.
  - destruct (Fs.lookup es p) as [[|] |] eqn:E.
    + destruct (Pathlib.eqb p target); discriminate.
    + destruct (IH _ _ H) as (new & -> & Hnew & Hall).
      exists new. repeat split; [assumption |].
      intros q Hq. apply elem_of_cons in Hq as [-> | Hq]; [| auto].
      apply fs_lookup_app. assumption.
    + destruct (IH _ _ H) as (new & -> & Hnew & Hall).
      exists ((p, KDir) :: new).
      split; [rewrite <- app_assoc; reflexivity |].
      split; [constructor; auto |].
      intros q Hq. apply elem_of_cons in Hq as [-> | Hq]; [| auto].
      apply fs_lookup_app, fs_lookup_new. assumption.
Qed.

Lemma ancestors_ends_with_self p :
  parts p <> [] -> p ∈ Pathlib.ancestors_and_self p.
Proof.
  destruct p as [r ps]. unfold Pathlib.ancestors_and_self. cbn [root parts].
  intros Hne.
  assert (G : forall done todo, todo <> [] ->
             {| root := r; parts := done ++ todo |}
             ∈ Pathlib.chain r done todo).
  { intros done todo. revert done.
    induction todo as [| c todo IH]; [congruence |]. intros done _. cbn.
    destruct todo as [| c' todo'].
    - left.
    - right. rewrite (cons_middle c done (c' :: todo')), app_assoc.
      apply IH. congruence. }
  exact (G [] ps Hne).
Qed.

(** ** Names that are a single path component *)

Lemma split_char_plain s :
  forallb (fun c => negb (PyStr.ascii_eqb c "/")) (PyStr.to_list s) = true ->
  PyStr.split_char "/" s = [s].
Proof.
  induction s as [| c s IH]; cbn; [reflexivity |].
  intros H. apply andb_prop in H as [Hc Hs].
  apply negb_true_iff in Hc. rewrite Hc, (IH Hs). reflexivity.
Qed.

Lemma of_string_plain s :
  plain s = true -> Pathlib.of_string s = {| root := ""; parts := [s] |}.
Proof.
  unfold plain. intros H.
  apply andb_prop in H as [H Hslash]. apply andb_prop in H as [He Hd].
  unfold Pathlib.of_string. rewrite (split_char_plain s Hslash).
  cbn [List.filter]. unfold Pathlib.real_part. rewrite He, Hd. cbn [andb].
  f_equal. unfold Pathlib.leading_root, PyStr.startswith.
  destruct s as [| c s]; [reflexivity |].
  cbn [PyStr.to_list list_ascii_of_string forallb] in Hslash.
  apply andb_prop in Hslash as [Hc _]. apply negb_true_iff in Hc.
  assert (E : PyStr.ascii_eqb "/" c = false).
  { unfold PyStr.ascii_eqb in *. rewrite Ascii.eqb_sym. exact Hc. }
  unfold PyStr.to_list. cbn [list_ascii_of_string PyStr.list_prefixb].
  rewrite E. reflexivity.
Qed.

Lemma vocab_path_plain a :
  plain (data_folder a) = true ->
  Train.vocab_path a = data_folder a +:+ "/binary/vocab.yaml"
  /\ Train.global_config_path a
     = data_folder a +:+ "/binary/global_config.yaml".
Proof.
  intros H. unfold Train.vocab_path, Train.global_config_path.
  rewrite (of_string_plain _ H). split; reflexivity.
Qed.

Lemma ckpt_dir_plain model_name :
  plain model_name = true ->
  Pathlib.to_string (Pathlib.of_string "ckpt" // model_name)
  = "ckpt/" +:+ model_name.
Proof.
  intros H. unfold Pathlib.joinpath. rewrite (of_string_plain _ H).
  reflexivity.
Qed.

(** ** Properties of every event *)

Section Emits.

Variable P : Event -> Prop.

Lemma emits_ret {A} (x : A) : emits P (mret x).
Proof.
  intros s. exists []. rewrite app_nil_r. split; [reflexivity | constructor].
Qed.

Lemma emits_lift {A} (r : Res A) : emits P (lift r).
Proof.
  intros s. exists []. rewrite app_nil_r. split; [reflexivity | constructor].
Qed.

Lemma emits_subscript c key : emits P (Dict.subscript c key).
Proof. apply emits_lift. Qed.

Lemma emits_emit e : P e -> emits P (emit e).
Proof.
  intros H s. exists [e].
  split; [reflexivity | repeat constructor; assumption].
Qed.

Lemma emits_load_yaml path : P (EvOpen path) -> emits P (Fs.load_yaml path).
Proof.
  intros H s. exists [EvOpen path]. unfold Fs.load_yaml.
  split; [destruct (docs (world s) path); reflexivity |].
  repeat constructor; assumption.
Qed.

Lemma emits_mkdir p : P (EvMkdir p) -> emits P (Fs.mkdir p).
Proof.
  intros H s. exists [EvMkdir p]. unfold Fs.mkdir.
  split; [destruct (Fs.mkdir_chain _ _ _); reflexivity |].
  repeat constructor; assumption.
Qed.

Lemma emits_rglob dir suffix :
  P (EvRglob dir ("*" +:+ suffix)) -> emits P (Fs.rglob dir suffix).
Proof.
  intros H s. exists [EvRglob dir ("*" +:+ suffix)].
  split; [reflexivity | repeat constructor; assumption].
Qed.

Lemma emits_bind {A B} (m : M A) (k : A -> M B) :
  emits P m -> (forall x, emits P (k x)) -> emits P (m ≫= k).
Proof.
  intros Hm Hk s. destruct (Hm s) as (new1 & E1 & H1).
  unfold mbind, M_bind. destruct (m s) as [[x | e |] s1]; cbn [snd] in *.
  - destruct (Hk x s1) as (new2 & E2 & H2).
    exists (new1 ++ new2). rewrite E2, E1, app_assoc.
    split; [reflexivity | apply Forall_app; auto].
  - exists new1. auto.
  - exists new1. auto.
Qed.

End Emits.

Ltac emits_step :=
  first
    [ apply emits_bind; [| intros ?]
    | apply emits_ret
    | apply emits_subscript
    | apply emits_lift
    | apply emits_emit
    | apply emits_load_yaml
    | apply emits_mkdir
    | apply emits_rglob
    | match goal with
      | |- emits _ (if ?b then _ else _) => destruct b
      | |- emits _ (match ?x with _ => _ end) => destruct x
      end ].

Lemma main_validation_fixed a : emits validation_fixed (Train.main a).
Proof.
  unfold Train.main, Train.prepare, Train.load_config, Train.build_data,
    Train.build_model, Train.build_callbacks, Train.build_trainer,
    Train.resolve_ckpt, Train.save_finetuned, Train.ckpt_dir.
  repeat emits_step; cbn;
    first [ exact I | reflexivity | split; reflexivity
          | intros; discriminate | intros; repeat split; reflexivity ].
Qed.

(** ** What a scan finds *)



(** ** Floats: comparison with zero, and division of small integers *)

Lemma gt_zero_ok v b : Py.gt_zero v = Ok b -> greater_than_zero v b.
Proof.
  destruct v as [| x | k | f | | |]; cbn; intros H; try discriminate;
    injection H as <-.
  - destruct x; reflexivity.
  - apply Z.ltb_lt.
  - destruct f as [s | s | | s m e]; cbn.
    + split; [discriminate |].
      intros [H | (q & H & Hq)]; [discriminate |].
      injection H as <-. inversion Hq.
    + destruct s; cbn; split; auto; try discriminate.
      intros [H | (q & H & _)]; discriminate.
    + split; [discriminate |]. intros [H | (q & H & _)]; discriminate.
    + assert (Hpow : 0 <= e -> 0 < 2 ^ e)
        by (intros; apply Z.pow_pos_nonneg; lia).
      destruct s; cbn; split; auto; try discriminate.
      * intros [H | (q & H & Hq)]; [discriminate |]. exfalso.
        injection H as <-. revert Hq.
        destruct (0 <=? e)%Z eqn:E; unfold Qlt; cbn; [| lia].
        apply Z.leb_le in E. specialize (Hpow E). nia.
      * intros _. right. eexists. split; [reflexivity |].
        destruct (0 <=? e)%Z eqn:E; unfold Qlt; cbn; [| lia].
        apply Z.leb_le in E. specialize (Hpow E). nia.
Qed.

(** A quotient that [/] returns is a float, and the divisor is one of
    the two literals. *)
Lemma truediv_ok v d x :
  Py.truediv v d = Ok x ->
  (d = 1 \/ d = 2)%positive /\ exists f, x = YFloat f.
Proof.
  unfold Py.truediv. intros H.
  assert (Hd : (d = 1 \/ d = 2)%positive)
    by (destruct d as [[] | [] |]; try discriminate; auto).
  split; [assumption |].
  destruct Hd as [-> | ->];
    (destruct v; cbn in H; try discriminate;
     [ | | injection H as <-; eauto ];
     match type of H with
     | match ?f with _ => _ end = _ =>
         destruct f; try discriminate; injection H as <-; eauto
     end).
Qed.

Section SmallIntegers.

Lemma digits2_pos_size m : digits2_pos m = Pos.size m.
Proof. induction m; cbn; congruence. Qed.

Lemma digits2_pos_bound m :
  Zpos m < 2 ^ 53 -> 1 <= Zpos (digits2_pos m) <= 53.
Proof.
  intros H. rewrite digits2_pos_size. split; [lia |].
  pose proof (Pos.size_le m) as Hle.
  apply Pos2Z.pos_le_pos in Hle. rewrite Pos2Z.inj_pow in Hle.
  destruct (Z_le_gt_dec (Zpos (Pos.size m)) 53) as [| Hgt]; [assumption |].
  exfalso.
  assert (2 ^ 54 <= 2 ^ Zpos (Pos.size m))
    by (apply Z.pow_le_mono_r; lia).
  change (Zpos m~0) with (2 * Zpos m) in Hle. lia.
Qed.

Lemma iter_xO_value m k : Zpos (Pos.iter xO m k) = Zpos m * 2 ^ Zpos k.
Proof.
  induction k as [| k IH] using Pos.peano_ind.
  - cbn. lia.
  - rewrite Pos.iter_succ, Pos2Z.inj_succ, Z.pow_succ_r by lia.
    change (Zpos (Pos.iter xO m k)~0) with (2 * Zpos (Pos.iter xO m k)).
    rewrite IH. ring.
Qed.

Lemma iter_xO_digits m k :
  Zpos (digits2_pos (Pos.iter xO m k)) = Zpos (digits2_pos m) + Zpos k.
Proof.
  induction k as [| k IH] using Pos.peano_ind.
  - cbn. lia.
  - rewrite Pos.iter_succ. cbn [digits2_pos].
    rewrite !Pos2Z.inj_succ, IH. ring.
Qed.

(** A mantissa of full width within the exponent range is kept as it
    is. *)
Lemma round_aux_exact s m e :
  Zpos (digits2_pos m) = 53 -> -1074 <= e <= 971 ->
  binary_round_aux 53 1024 s (Zpos m) e loc_Exact = S754_finite s m e.
Proof.
  intros Hd He.
  assert (Hs : fexp 53 1024 (Zdigits2 (Zpos m) + e) - e = 0).
  { unfold fexp, emin. cbn [Zdigits2]. rewrite Hd. lia. }
  unfold binary_round_aux, shr_fexp. rewrite Hs.
  cbn [shr shr_record_of_loc shr_m loc_of_shr_record round_nearest_even].
  rewrite Hs. cbn [shr shr_m].
  replace (e <=? 1024 - 53)%Z with true by (symmetry; apply Z.leb_le; lia).
  reflexivity.
Qed.

(** Below 2^53 a mantissa is shifted to full width and nothing is
    rounded away. *)
Lemma round_exact s m e :
  Zpos m < 2 ^ 53 -> -1 <= e <= 0 ->
  exists m' e',
    binary_round 53 1024 s m e = S754_finite s m' e'
    /\ e' <= e /\ Zpos m' = Zpos m * 2 ^ (e - e').
Proof.
  intros Hm He. pose proof (digits2_pos_bound m Hm) as Hd.
  unfold binary_round, shl_align.
  assert (Hf : fexp 53 1024 (Zpos (digits2_pos m) + e)
               = Zpos (digits2_pos m) + e - 53)
    by (unfold fexp, emin; lia).
  rewrite Hf.
  destruct (Zpos (digits2_pos m) + e - 53 - e) as [| k | k] eqn:Hk; [| lia |].
  - exists m, e. rewrite round_aux_exact by lia.
    split; [reflexivity |]. split; [lia |].
    rewrite Z.sub_diag. cbn. lia.
  - exists (Pos.iter xO m k), (Zpos (digits2_pos m) + e - 53).
    rewrite round_aux_exact; [| rewrite iter_xO_digits; lia | lia].
    split; [reflexivity |]. split; [lia |].
    rewrite iter_xO_value. f_equal. f_equal. lia.
Qed.

(** The float of a finite datum with a non-positive exponent. *)
Lemma float_value_finite s m m' e e' :
  e' <= e <= 0 -> Zpos m' = Zpos m * 2 ^ (e - e') ->
  exists q,
    Py.float_value (S754_finite s m' e') = Some q
    /\ (q * inject_Z (2 ^ (- e)) == inject_Z (if s then Zneg m else Zpos m))%Q.
Proof.
  intros He Hm. eexists. split; [reflexivity |].
  assert (Hpow : 2 ^ (e - e') * 2 ^ (- e) = 2 ^ (- e'))
    by (rewrite <- Z.pow_add_r by lia; f_equal; lia).
  assert (Hpos : 0 < 2 ^ (- e')) by (apply Z.pow_pos_nonneg; lia).
  destruct (0 <=? e')%Z eqn:E.
  - apply Z.leb_le in E. assert (e' = 0) by lia. assert (e = 0) by lia.
    subst e e'. cbn in Hm. unfold Qeq. cbn.
    destruct s; lia.
  - unfold Qeq. cbn [Qnum Qden Qmult inject_Z].
    rewrite Pos.mul_1_r, Z2Pos.id by assumption.
    destruct s.
    + change (Zneg m') with (- Zpos m'). change (Zneg m) with (- Zpos m).
      rewrite Hm. nia.
    + rewrite Hm. nia.
Qed.

(** An integer up to 2^53 in magnitude, scaled by 1 or by 1/2, is a
    float. *)
Lemma normalize_exact n e :
  Z.abs n <= 2 ^ 53 -> -1 <= e <= 0 ->
  exists f q,
    binary_normalize Py.prec Py.emax n e false = f
    /\ (forall s, f <> S754_infinity s)
    /\ Py.float_value f = Some q
    /\ (q * inject_Z (2 ^ (- e)) == inject_Z n)%Q.
Proof.
  intros Hn He. unfold Py.prec, Py.emax.
  assert (Hcases : n = 0 \/ Z.abs n = 2 ^ 53 \/ 0 < Z.abs n < 2 ^ 53) by lia.
  destruct Hcases as [-> | [Hmax | Hsmall]].
  - eexists _, _. cbn. split; [reflexivity |]. split; [discriminate |].
    split; [reflexivity |]. reflexivity.
  - assert (Hn' : n = 9007199254740992 \/ n = -9007199254740992)
      by (change (2 ^ 53) with 9007199254740992 in Hmax; lia).
    assert (He' : e = 0 \/ e = -1) by lia.
    destruct Hn' as [-> | ->]; destruct He' as [-> | ->];
      (eexists _, _; split; [vm_compute; reflexivity |];
       split; [discriminate |]; split; [vm_compute; reflexivity |];
       reflexivity).
  - destruct n as [| m | m]; [lia | |].
    + destruct (round_exact false m e) as (m' & e' & Hr & Hle & Hm); [lia.. |].
      destruct (float_value_finite false m m' e e') as (q & Hq & Heq);
        [lia | assumption |].
      exists (S754_finite false m' e'), q. cbn [binary_normalize].
      repeat split; try assumption. discriminate.
    + destruct (round_exact true m e) as (m' & e' & Hr & Hle & Hm); [lia.. |].
      destruct (float_value_finite true m m' e e') as (q & Hq & Heq);
        [lia | assumption |].
      exists (S754_finite true m' e'), q. cbn [binary_normalize].
      repeat split; try assumption. discriminate.
Qed.

End SmallIntegers.

(** Dividing an integer up to 2^53 in magnitude by 1 or by 2 loses
    nothing. *)
Lemma truediv_exact v n (halve : bool) f :
  Py.int_value v = Some n ->
  Z.abs n <= 2 ^ 53 ->
  Py.truediv v (if halve then 2%positive else 1%positive) = Ok (YFloat f) ->
  exists q,
    Py.float_value f = Some q
    /\ (q == if halve then inject_Z n / 2 else inject_Z n)%Q.
Proof.
  intros Hv Hn H.
  destruct (normalize_exact n (if halve then -1 else 0) Hn)
    as (f' & q & Hf & Hfin & Hq & Heq); [destruct halve; lia |].
  assert (f = f') as ->.
  { unfold Py.truediv in H.
    destruct v; try discriminate Hv; cbn [Py.int_value] in *;
      injection Hv as Hv; subst n;
      (destruct halve; cbn [Pos.eqb] in H; rewrite Hf in H;
       destruct f'; try (exfalso; eapply Hfin; reflexivity);
       injection H as <-; reflexivity). }
  exists q. split; [assumption |].
  destruct halve; revert Heq; destruct q as [num den];
    unfold Qeq, Qdiv, Qmult, Qinv; cbn; lia.
Qed.

(** ** Floats: division by 1 and by 2 *)

Section FloatDivision.

Lemma round_aux_canonical s m e :
  fexp 53 1024 (Zpos (digits2_pos m) + e) = e -> e <= 971 ->
  binary_round_aux 53 1024 s (Zpos m) e loc_Exact = S754_finite s m e.
Proof.
  intros Hc He.
  assert (Hs : fexp 53 1024 (Zdigits2 (Zpos m) + e) - e = 0)
    by (cbn [Zdigits2]; lia).
  unfold binary_round_aux, shr_fexp. rewrite Hs.
  cbn [shr shr_record_of_loc shr_m loc_of_shr_record round_nearest_even].
  rewrite Hs. cbn [shr shr_m].
  replace (e <=? 1024 - 53)%Z with true by (symmetry; apply Z.leb_le; lia).
  reflexivity.
Qed.

Lemma round_aux_doubled s m e :
  Zpos (digits2_pos m) = 53 -> -1075 <= e <= 970 ->
  binary_round_aux 53 1024 s (Zpos m~0) e loc_Exact
  = S754_finite s m (e + 1).
Proof.
  intros Hd He.
  assert (Hs : fexp 53 1024 (Zdigits2 (Zpos m~0) + e) - e = 1).
  { unfold fexp, emin. cbn [Zdigits2 digits2_pos].
    rewrite Pos2Z.inj_succ, Hd. lia. }
  assert (Hs' : fexp 53 1024 (Zdigits2 (Zpos m) + (e + 1)) - (e + 1) = 0).
  { unfold fexp, emin. cbn [Zdigits2]. rewrite Hd. lia. }
  unfold binary_round_aux, shr_fexp. rewrite Hs.
  cbn [shr shr_record_of_loc shr_m loc_of_shr_record round_nearest_even
       SpecFloat.iter_pos shr_1 orb].
  rewrite Hs'. cbn [shr shr_m].
  replace (e + 1 <=? 1024 - 53)%Z with true
    by (symmetry; apply Z.leb_le; lia).
  reflexivity.
Qed.

Lemma div_eucl_exact a b q :
  0 < b -> a = b * q -> Z.div_eucl a b = (q, 0).
Proof.
  intros Hb ->. generalize (Z_div_mod (b * q) b ltac:(lia)).
  destruct (Z.div_eucl (b * q) b) as [q' r]. intros [H Hr].
  assert (q' = q) by nia. subst q'. f_equal. lia.
Qed.

(** The core of a division by 2^(k-1), for k = 1 or 2, above the lowest
    exponent. *)
Lemma div_core_high m e k :
  Zpos (digits2_pos m) = 53 -> 1 <= k <= 2 -> -1074 <= e - k ->
  SFdiv_core_binary 53 1024 (Zpos m) e 4503599627370496 (k - 53)
  = (Zpos m~0, e - k, loc_Exact).
Proof.
  intros Hd Hk He. unfold SFdiv_core_binary.
  cbn [Zdigits2]. rewrite Hd.
  change (Zpos (digits2_pos 4503599627370496)) with 53.
  assert (He' : Z.min (fexp 53 1024 (53 + e - (53 + (k - 53))))
                  (e - (k - 53)) = e - k)
    by (unfold fexp, emin; lia).
  rewrite He'.
  replace (e - (k - 53) - (e - k)) with 53 by lia. cbv zeta iota beta.
  rewrite Z.shiftl_mul_pow2 by lia.
  rewrite (div_eucl_exact _ _ (Zpos m~0)); [reflexivity | lia |].
  change (Zpos m~0) with (2 * Zpos m).
  change (2 ^ 53) with (4503599627370496 * 2). ring.
Qed.

Lemma div_core_low m e k :
  Zpos (digits2_pos m) <= 53 -> 1 <= k <= 2 ->
  Zpos (digits2_pos m) + e - k - 53 <= -1074 -> -1074 <= e ->
  e - k = -1075 ->
  SFdiv_core_binary 53 1024 (Zpos m) e 4503599627370496 (k - 53)
  = (Zpos m, -1074, loc_Exact).
Proof.
  intros Hd Hk Hlow He Hek. unfold SFdiv_core_binary.
  cbn [Zdigits2].
  change (Zpos (digits2_pos 4503599627370496)) with 53.
  assert (He' : Z.min (fexp 53 1024
                         (Zpos (digits2_pos m) + e - (53 + (k - 53))))
                  (e - (k - 53)) = -1074)
    by (unfold fexp, emin; lia).
  rewrite He'.
  replace (e - (k - 53) - -1074) with 52 by lia. cbv zeta iota beta.
  rewrite Z.shiftl_mul_pow2 by lia.
  rewrite (div_eucl_exact _ _ (Zpos m)); [reflexivity | lia |].
  change (2 ^ 52) with 4503599627370496. ring.
Qed.

Lemma float_of_small_1 :
  Py.float_of_small 1 = S754_finite false 4503599627370496 (-52).
Proof. reflexivity. Qed.

Lemma float_of_small_2 :
  Py.float_of_small 2 = S754_finite false 4503599627370496 (-51).
Proof. reflexivity. Qed.

(** A finite binary64 datum is normal, or has the lowest exponent. *)
Lemma valid_finite m e :
  bounded 53 1024 m e = true ->
  e <= 971
  /\ ((Zpos (digits2_pos m) = 53 /\ -1074 <= e)
      \/ (Zpos (digits2_pos m) <= 53 /\ e = -1074)).
Proof.
  unfold bounded, canonical_mantissa, fexp, emin. intros H.
  apply andb_prop in H as [Hc Hb].
  apply Z.eqb_eq in Hc. apply Z.leb_le in Hb. lia.
Qed.

(** Dividing a float by 1 gives the same float; dividing it by 2 lowers
    the exponent by one, above the lowest exponent. *)
Lemma sfdiv_exact s m e (halve : bool) :
  bounded 53 1024 m e = true ->
  (halve = true -> -1074 < e) ->
  SFdiv Py.prec Py.emax (S754_finite s m e)
    (Py.float_of_small (if halve then 2 else 1))
  = S754_finite s m (if halve then e - 1 else e).
Proof.
  intros Hv Hlow. destruct (valid_finite m e Hv) as (Hmax & Hshape).
  unfold Py.prec, Py.emax.
  assert (Hsign : xorb s false = s) by (destruct s; reflexivity).
  destruct halve.
  - specialize (Hlow eq_refl). rewrite float_of_small_2. cbn [SFdiv].
    rewrite Hsign. change (-51) with (2 - 53).
    destruct Hshape as [[Hd He] | [Hd He]]; [| lia].
    destruct (Z.eq_dec e (-1073)) as [-> | Hne].
    + rewrite div_core_low by lia.
      apply round_aux_canonical; [unfold fexp, emin |]; lia.
    + rewrite div_core_high by lia.
      rewrite round_aux_doubled by lia. f_equal. lia.
  - rewrite float_of_small_1. cbn [SFdiv].
    rewrite Hsign. change (-52) with (1 - 53).
    destruct (Z.eq_dec e (-1074)) as [-> | Hne].
    + rewrite div_core_low by lia.
      apply round_aux_canonical; [unfold fexp, emin |]; lia.
    + destruct Hshape as [[Hd He] | [Hd He]]; [| lia].
      rewrite div_core_high by lia.
      rewrite round_aux_doubled by lia. f_equal. lia.
Qed.

End FloatDivision.

(** What [/] gives on a float: the same float for the divisor 1, and for
    the divisor 2 the same float for zeros, infinities and NaN and the
    float with the exponent lowered by one otherwise. *)
Lemma truediv_float_exact f (halve : bool) :
  valid_binary Py.prec Py.emax f = true ->
  match f with
  | S754_finite s m e =>
      (halve = true -> -1074 < e) ->
      Py.truediv (YFloat f) (if halve then 2%positive else 1%positive)
      = Ok (YFloat (S754_finite s m (if halve then e - 1 else e)))
  | _ =>
      Py.truediv (YFloat f) (if halve then 2%positive else 1%positive)
      = Ok (YFloat f)
  end.
Proof.
  intros Hv. destruct f as [s | s | | s m e].
  - destruct halve, s; reflexivity.
  - destruct halve, s; reflexivity.
  - destruct halve; reflexivity.
  - intros Hlow. cbn [valid_binary] in Hv.
    pose proof (sfdiv_exact s m e halve Hv Hlow) as H.
    destruct halve; cbn [Py.truediv]; rewrite H; reflexivity.
Qed.

(** Lowering the exponent by one halves the number. *)
Lemma float_value_halved s m e x :
  Py.float_value (S754_finite s m e) = Some x ->
  exists q,
    Py.float_value (S754_finite s m (e - 1)) = Some q /\ (q == x / 2)%Q.
Proof.
  intros H. eexists. split; [reflexivity |]. injection H as <-.
  set (mantissa := if s then Zneg m else Zpos m).
  destruct (0 <=? e - 1)%Z eqn:E1.
  - apply Z.leb_le in E1.
    replace (0 <=? e)%Z with true by (symmetry; apply Z.leb_le; lia).
    replace (2 ^ e) with (2 * 2 ^ (e - 1))
      by (rewrite <- Z.pow_succ_r by lia; f_equal; lia).
    unfold Qeq, Qdiv, Qmult, Qinv. cbn. lia.
  - apply Z.leb_gt in E1.
    assert (Hpos : 0 < 2 ^ (- (e - 1))) by (apply Z.pow_pos_nonneg; lia).
    destruct (0 <=? e)%Z eqn:E0.
    + apply Z.leb_le in E0. assert (e = 0) by lia. subst e.
      unfold Qeq, Qdiv, Qmult, Qinv. cbn. lia.
    + apply Z.leb_gt in E0.
      assert (Hpos' : 0 < 2 ^ (- e)) by (apply Z.pow_pos_nonneg; lia).
      assert (Hpow : 2 ^ (- (e - 1)) = 2 * 2 ^ (- e))
        by (rewrite <- Z.pow_succ_r by lia; f_equal; lia).
      unfold Qeq, Qdiv, Qmult, Qinv. cbn [Qnum Qden].
      rewrite Pos2Z.inj_mul, !Z2Pos.id by assumption.
      rewrite Hpow. cbn. lia.
Qed.

(** * The properties of the specification *)

(** The calls of a successful run, read off its events. *)
Ltac by_cases a :=
  unfold prepare_events, finish_events, load_events, data_events,
    callback_events, resolve_events, save_events;
  destruct (ft a) eqn:?;
  destruct (pretrained_model_path a) as [?path |] eqn:?;
  destruct (resume a) eqn:?.



(** On the sample checkpoint directory the resumed run continues from
    step 1500, the second entry in scan order. *)
Example sample_resuming_run :
  Calls.fits (trace (Run.outcome Run.resuming Sample.trained))
  = [fit_args (Some "ckpt/m/step=1500.ckpt")].
Proof. reflexivity. Qed.

(** C8.  With both [--pretrained_model_path] and [--resume], the
    pretrained branch is the one taken: once the trainer is built the run
    goes through, the checkpoint directory is never scanned, and
    [trainer.fit] gets [ckpt_path = None]. *)
Theorem pretrained_takes_precedence a w config s1 path :
  pretrained_model_path a = Some path ->
  resume a = true ->
  Train.prepare a (initial w) = (Ok config, s1) ->
  exists s2,
    Train.main a (initial w) = (Ok tt, s2)
    /\ Calls.scans (trace s2) = []
    /\ Calls.pretrained_loads (trace s2) = [path]
    /\ Calls.pretrained_copies (trace s2) = [tt]
    /\ Calls.fits (trace s2) = [fit_args None].
Proof.
  intros Hpre Hresume Hp.
  destruct (prepare_ok _ _ _ _ Hp)
    as (vocab & aug & workers & maxlen & mn & ts & es & Hprep & Hs1).
  pose proof (pr_model_name _ _ _ _ _ _ _ _ _ _ Hprep) as Hname.
  eexists. split.
  - apply (main_run a w config s1 mn None Hp Hname).
    unfold resolved. rewrite Hpre. reflexivity.
  - subst s1. cbn [world trace].
    by_cases a; try discriminate;
      repeat match goal with
             | H : Some _ = Some _ |- _ => injection H as ->
             end;
      repeat split; reflexivity.
Qed.

Lemma pretrained_takes_precedence_witness :
  Train.prepare Run.pretrained_and_resume (initial Sample.trained)
  = (Ok Run.config, Run.prepared Run.pretrained_and_resume Sample.trained)
  /\ exists s2,
       Train.main Run.pretrained_and_resume (initial Sample.trained)
       = (Ok tt, s2)
       /\ Calls.scans (trace s2) = []
       /\ Calls.pretrained_loads (trace s2) = ["base.ckpt"]
       /\ Calls.pretrained_copies (trace s2) = [tt]
       /\ Calls.fits (trace s2) = [fit_args None].
Proof.
  assert (H : Train.prepare Run.pretrained_and_resume (initial Sample.trained)
              = (Ok Run.config,
                 Run.prepared Run.pretrained_and_resume Sample.trained))
    by reflexivity.
  exact (conj H (pretrained_takes_precedence
                   Run.pretrained_and_resume Sample.trained _ _ "base.ckpt"
                   eq_refl eq_refl H)).
Defined.

(** C2.  In a run that goes through, [--ft] is set exactly when no
    [ModelCheckpoint] callback is built and a checkpoint is saved at the
    end.  With [--ft] the trainer's first callback is [None] and the last
    two calls are [trainer.fit] and the weights-only save at
    [ckpt/<model_name>.ckpt]; without it one [ModelCheckpoint] is built,
    keeping the top [num_ckpt_keep] checkpoints by the greatest [step],
    and nothing is saved by the script itself. *)
Theorem finetune_flag_switches_checkpointing a w s :
  Train.main a (initial w) = (Ok tt, s) ->
  exists config model_name,
    let dir := Pathlib.of_string "ckpt" // model_name in
    merged_config a w config
    /\ config !! "model_name" = Some (YStr model_name)
    /\ (ft a = true <->
        Calls.checkpoint_callbacks (trace s) = []
        /\ Calls.saves (trace s) = [(Pathlib.to_string dir +:+ ".ckpt", true)])
    /\ (ft a = false <->
        length (Calls.checkpoint_callbacks (trace s)) = 1%nat
        /\ Calls.saves (trace s) = [])
    /\ if ft a then
         tr_callbacks <$> Calls.trainers (trace s)
         = [[None; Some CbProgressBar]]
         /\ exists before ckpt_path,
              trace s
              = before ++ [EvFit (fit_args ckpt_path);
                           EvSaveCheckpoint
                             (Pathlib.to_string dir +:+ ".ckpt") true]
       else
         tr_callbacks <$> Calls.trainers (trace s)
         = [[Some CbModelCheckpoint; Some CbProgressBar]]
         /\ exists keep interval,
              config !! "num_ckpt_keep" = Some keep
              /\ Calls.checkpoint_callbacks (trace s)
                 = [ {| mc_dirpath := Pathlib.to_string dir;
                        mc_monitor := "step";
                        mc_mode := "max";
                        mc_save_top_k := keep;
                        mc_filename := "{step}";
                        mc_every_n_train_steps := interval;
                        mc_verbose := true |} ].
Proof.
  intros H. apply main_ok in H
    as (config & vocab & aug & workers & maxlen & mn & ts & es & ckpt
        & Hprep & Hres & Hworld & Htrace).
  cbn zeta in *. exists config, mn. cbn zeta.
  split; [exact (pr_merged _ _ _ _ _ _ _ _ _ _ Hprep) |].
  split; [exact (pr_model_name _ _ _ _ _ _ _ _ _ _ Hprep) |].
  pose proof (pr_keep _ _ _ _ _ _ _ _ _ _ Hprep) as Hkeep.
  rewrite Htrace. clear Htrace Hworld Hres.
  unfold finish_events, save_events, checkpoint_callback.
  destruct (ft a) eqn:Hft.
  - assert (Hnone : Calls.checkpoint_callbacks
                      (prepare_events a config vocab aug workers maxlen
                         (Pathlib.of_string "ckpt" // mn) ts
                       ++ resolve_events a (Pathlib.of_string "ckpt" // mn)
                       ++ [EvFit (fit_args ckpt)]
                       ++ [EvSaveCheckpoint
                             (Pathlib.to_string
                                (Pathlib.of_string "ckpt" // mn) +:+ ".ckpt")
                             true]) = []).
    { unfold prepare_events, callback_events, resolve_events. rewrite Hft.
      destruct (pretrained_model_path a); [| destruct (resume a)];
        reflexivity. }
    rewrite Hnone.
    split; [split; [intros _; split; [reflexivity |] | reflexivity] |].
    { unfold prepare_events, callback_events, resolve_events. rewrite Hft.
      destruct (pretrained_model_path a); [| destruct (resume a)];
        reflexivity. }
    split; [split; [discriminate | intros [Hlen _]; discriminate Hlen] |].
    split.
    + unfold prepare_events, callback_events, resolve_events, trainer_args,
        checkpoint_callback.
      rewrite Hft.
      destruct (pretrained_model_path a); [| destruct (resume a)];
        reflexivity.
    + exists (prepare_events a config vocab aug workers maxlen
                (Pathlib.of_string "ckpt" // mn) ts
              ++ resolve_events a (Pathlib.of_string "ckpt" // mn)), ckpt.
      rewrite <- app_assoc. reflexivity.
  - assert (Hone : Calls.checkpoint_callbacks
                     (prepare_events a config vocab aug workers maxlen
                        (Pathlib.of_string "ckpt" // mn) ts
                      ++ resolve_events a (Pathlib.of_string "ckpt" // mn)
                      ++ [EvFit (fit_args ckpt)] ++ [])
                   = [checkpoint_args config (Pathlib.of_string "ckpt" // mn)]).
    { unfold prepare_events, callback_events, resolve_events. rewrite Hft.
      destruct (pretrained_model_path a); [| destruct (resume a)];
        reflexivity. }
    assert (Hsaves : Calls.saves
                       (prepare_events a config vocab aug workers maxlen
                          (Pathlib.of_string "ckpt" // mn) ts
                        ++ resolve_events a (Pathlib.of_string "ckpt" // mn)
                        ++ [EvFit (fit_args ckpt)] ++ []) = []).
    { unfold prepare_events, callback_events, resolve_events. rewrite Hft.
      destruct (pretrained_model_path a); [| destruct (resume a)];
        reflexivity. }
    rewrite Hone, Hsaves.
    split; [split; [discriminate | intros [Hc _]; discriminate Hc] |].
    split; [split; [intros _; split; reflexivity | reflexivity] |].
    split.
    + unfold prepare_events, callback_events, resolve_events, trainer_args,
        checkpoint_callback.
      rewrite Hft.
      destruct (pretrained_model_path a); [| destruct (resume a)];
        reflexivity.
    + exists (config !!! "num_ckpt_keep"), (config !!! "val_check_interval").
      split; [exact (Hkeep eq_refl) | reflexivity].
Qed.

Lemma finetune_flag_switches_checkpointing_witness :
  Train.main Run.finetuning (initial Sample.trained)
  = (Ok tt, Run.outcome Run.finetuning Sample.trained)
  /\ exists config model_name,
       let dir := Pathlib.of_string "ckpt" // model_name in
       let s := Run.outcome Run.finetuning Sample.trained in
       merged_config Run.finetuning Sample.trained config
       /\ config !! "model_name" = Some (YStr model_name)
       /\ (ft Run.finetuning = true <->
           Calls.checkpoint_callbacks (trace s) = []
           /\ Calls.saves (trace s)
              = [(Pathlib.to_string dir +:+ ".ckpt", true)])
       /\ (ft Run.finetuning = false <->
           length (Calls.checkpoint_callbacks (trace s)) = 1%nat
           /\ Calls.saves (trace s) = [])
       /\ tr_callbacks <$> Calls.trainers (trace s)
          = [[None; Some CbProgressBar]]
       /\ exists before ckpt_path,
            trace s
            = before ++ [EvFit (fit_args ckpt_path);
                         EvSaveCheckpoint
                           (Pathlib.to_string dir +:+ ".ckpt") true].
Proof.
  assert (H : Train.main Run.finetuning (initial Sample.trained)
              = (Ok tt, Run.outcome Run.finetuning Sample.trained))
    by reflexivity.
  exact (conj H (finetune_flag_switches_checkpointing _ _ _ H)).
Defined.

(** On the sample documents: the finetuning run builds no
    [ModelCheckpoint] and ends with the weights-only save next to the
    checkpoint directory; the plain run builds one and saves nothing. *)
Example sample_finetuning_run :
  Calls.checkpoint_callbacks (trace (Run.outcome Run.finetuning Sample.trained))
  = []
  /\ Calls.saves (trace (Run.outcome Run.finetuning Sample.trained))
     = [("ckpt/m.ckpt", true)]
  /\ mc_save_top_k
       <$> Calls.checkpoint_callbacks
             (trace (Run.outcome Sample.defaults Sample.trained))
     = [YInt 5]
  /\ Calls.saves (trace (Run.outcome Sample.defaults Sample.trained)) = [].
Proof. repeat split; reflexivity. Qed.

(** The calls before the trainer is built hold no scan and no [fit]. *)
Lemma prepare_events_calls a config vocab aug workers maxlen dir ts :
  Calls.scans (prepare_events a config vocab aug workers maxlen dir ts) = []
  /\ Calls.fits (prepare_events a config vocab aug workers maxlen dir ts) = []
  /\ Calls.pretrained_loads
       (prepare_events a config vocab aug workers maxlen dir ts) = [].
Proof.
  unfold prepare_events, callback_events. destruct (ft a);
    repeat split; reflexivity.
Qed.

(** C5.  With [--resume] and no [*.ckpt] entry below the checkpoint
    directory, nothing is raised: once the trainer is built the run goes
    through and [trainer.fit] gets [ckpt_path = None]. *)
Theorem resume_without_checkpoints a w config s1 model_name :
  resume a = true ->
  Train.prepare a (initial w) = (Ok config, s1) ->
  config !! "model_name" = Some (YStr model_name) ->
  Fs.glob_below (Pathlib.of_string "ckpt" // model_name) ".ckpt"
    (entries (world s1)) = [] ->
  exists s2,
    Train.main a (initial w) = (Ok tt, s2)
    /\ Calls.fits (trace s2) = [fit_args None].
Proof.
  intros Hresume Hp Hname Hempty.
  destruct (prepare_ok _ _ _ _ Hp)
    as (vocab & aug & workers & maxlen & mn & ts & es & Hprep & Hs1).
  eexists. split.
  - apply (main_run a w config s1 model_name None Hp Hname).
    unfold resolved. rewrite Hresume, Hempty.
    destruct (pretrained_model_path a); reflexivity.
  - subst s1. cbn [world trace]. unfold Calls.fits.
    rewrite omap_app.
    destruct (prepare_events_calls a config vocab aug workers maxlen
                (Pathlib.of_string "ckpt" // mn) ts) as (_ & Hfits & _).
    unfold Calls.fits in Hfits. rewrite Hfits.
    unfold finish_events, resolve_events, save_events. rewrite Hresume.
    destruct (pretrained_model_path a); destruct (ft a); reflexivity.
Qed.

Lemma resume_without_checkpoints_witness :
  Train.prepare Run.resuming (initial Sample.fresh)
  = (Ok Run.config, Run.prepared Run.resuming Sample.fresh)
  /\ exists s2,
       Train.main Run.resuming (initial Sample.fresh) = (Ok tt, s2)
       /\ Calls.fits (trace s2) = [fit_args None].
Proof.
  assert (H : Train.prepare Run.resuming (initial Sample.fresh)
              = (Ok Run.config, Run.prepared Run.resuming Sample.fresh))
    by reflexivity.
  exact (conj H (resume_without_checkpoints
                   Run.resuming Sample.fresh _ _ "m" eq_refl H eq_refl
                   eq_refl)).
Defined.

(** C1, as the code has it.  With [--resume] and no pretrained model
    path, every entry named [*.ckpt] below [ckpt/<model_name>], at any
    depth, is taken (no name is filtered out); its step number is the
    integer after the last [step=] of its stem, or the whole stem where
    [step=] does not occur.  When each of these is an integer, the run goes
    through once the trainer is built, the directory is scanned once, and
    [trainer.fit] gets as [ckpt_path] the first entry in scan order that
    has the greatest step number ([None] when nothing was found). *)
Theorem resume_selects_first_greatest_step a w config s1 model_name :
  pretrained_model_path a = None ->
  resume a = true ->
  Train.prepare a (initial w) = (Ok config, s1) ->
  config !! "model_name" = Some (YStr model_name) ->
  let dir := Pathlib.of_string "ckpt" // model_name in
  let found := Fs.glob_below dir ".ckpt" (entries (world s1)) in
  Forall (fun p => is_Some (Resume.step_key p)) found ->
  exists s2 ckpt_path,
    Train.main a (initial w) = (Ok tt, s2)
    /\ Calls.scans (trace s2) = [(dir, "*.ckpt")]
    /\ Calls.fits (trace s2) = [fit_args ckpt_path]
    /\ chosen found ckpt_path.
Proof.
  intros Hpre Hresume Hp Hname dir found Hkeys.
  destruct (latest_total found Hkeys) as (ckpt & Hlatest).
  destruct (prepare_ok _ _ _ _ Hp)
    as (vocab & aug & workers & maxlen & mn & ts & es & Hprep & Hs1).
  eexists _, ckpt. split.
  - apply (main_run a w config s1 model_name ckpt Hp Hname).
    unfold resolved. rewrite Hpre, Hresume. exact Hlatest.
  - subst s1. cbn [world trace].
    destruct (prepare_events_calls a config vocab aug workers maxlen
                (Pathlib.of_string "ckpt" // mn) ts) as (Hscans & Hfits & _).
    unfold Calls.scans, Calls.fits in *. rewrite !omap_app, Hscans, Hfits.
    unfold finish_events, resolve_events, save_events.
    rewrite Hpre, Hresume.
    split; [destruct (ft a); reflexivity |].
    split; [destruct (ft a); reflexivity |].
    apply latest_chosen. exact Hlatest.
Qed.

Lemma resume_selects_first_greatest_step_witness :
  Train.prepare Run.resuming (initial Sample.trained)
  = (Ok Run.config, Run.prepared Run.resuming Sample.trained)
  /\ exists s2 ckpt_path,
       Train.main Run.resuming (initial Sample.trained) = (Ok tt, s2)
       /\ Calls.scans (trace s2) = [(Pathlib.of_string "ckpt/m", "*.ckpt")]
       /\ Calls.fits (trace s2) = [fit_args ckpt_path]
       /\ chosen [ Pathlib.of_string "ckpt/m/step=500.ckpt";
                   Pathlib.of_string "ckpt/m/step=1500.ckpt";
                   Pathlib.of_string "ckpt/m/step=1000.ckpt" ] ckpt_path.
Proof.
  assert (H : Train.prepare Run.resuming (initial Sample.trained)
              = (Ok Run.config, Run.prepared Run.resuming Sample.trained))
    by reflexivity.
  refine (conj H (resume_selects_first_greatest_step
                    Run.resuming Sample.trained _ _ "m" eq_refl eq_refl H
                    eq_refl _)).
  change (Forall (fun p => is_Some (Resume.step_key p))
            [ Pathlib.of_string "ckpt/m/step=500.ckpt";
              Pathlib.of_string "ckpt/m/step=1500.ckpt";
              Pathlib.of_string "ckpt/m/step=1000.ckpt" ]).
  repeat (constructor; [eexists; reflexivity |]). constructor.
Defined.

(** C1, as stated, fails.  Below [ckpt/m] lie [step=3.ckpt] and [7.ckpt].
    Only the first name matches [step=<N>], so the filtering rule picks
    it; the run hands [7.ckpt] to [trainer.fit]. *)
Lemma resume_takes_unpatterned_name :
  Train.main Run.resuming (initial Run.renamed)
  = (Ok tt, Run.outcome Run.resuming Run.renamed)
  /\ Calls.fits (trace (Run.outcome Run.resuming Run.renamed))
     = [fit_args (Some "ckpt/m/7.ckpt")]
  /\ Claimed.step_number (Pathlib.of_string "ckpt/m/7.ckpt") = None
  /\ Claimed.latest
       (Fs.glob_below (Pathlib.of_string "ckpt/m") ".ckpt"
          (entries (world (Run.outcome Run.resuming Run.renamed))))
     = Some "ckpt/m/step=3.ckpt"
  /\ fit_ckpt_path <$> Calls.fits (trace (Run.outcome Run.resuming Run.renamed))
     <> [Claimed.latest
           (Fs.glob_below (Pathlib.of_string "ckpt/m") ".ckpt"
              (entries (world (Run.outcome Run.resuming Run.renamed))))].
Proof.
  do 4 (split; [reflexivity |]). vm_compute. intros H. discriminate H.
Qed.

(** A second file for the same step, named with a version suffix, stops
    the program: [int("100-v1")] raises. *)
Lemma resume_stops_on_versioned_name :
  fst (Train.main Run.resuming (initial Run.versioned)) = Raise ValueError
  /\ Calls.fits (trace (snd (Train.main Run.resuming (initial Run.versioned))))
     = []
  /\ Claimed.latest
       (Fs.glob_below (Pathlib.of_string "ckpt/m") ".ckpt"
          (entries Run.versioned))
     = Some "ckpt/m/step=100.ckpt".
Proof. repeat split; reflexivity. Qed.

(** C3.  When the run configuration and the global configuration are
    both mappings (and the vocabulary loads), the configuration the
    script works with has, under every key, the value of the global
    configuration where it has one and the value of the run configuration
    otherwise. *)
Theorem global_config_overrides_run_config a w c g vocab :
  docs w (config_path a) = Doc (YMap c) ->
  docs w (Train.vocab_path a) = Doc vocab ->
  docs w (Train.global_config_path a) = Doc (YMap g) ->
  exists config s1,
    Train.load_config a (initial w) = (Ok (vocab, config), s1)
    /\ merged_config a w config
    /\ forall key,
         config !! key
         = match g !! key with
           | Some v => Some v
           | None => c !! key
           end.
Proof.
  intros Hc Hv Hg. exists (g ∪ c). eexists. split; [| split].
  - unfold Train.load_config, Fs.load_yaml, lift, mbind, M_bind, mret, M_ret.
    cbn [world trace initial]. rewrite Hc. cbn [world trace].
    rewrite Hv. cbn [world trace]. rewrite Hg. reflexivity.
  - exists c, (YMap g). auto.
  - intros key. rewrite lookup_union.
    destruct (g !! key), (c !! key); reflexivity.
Qed.

Lemma global_config_overrides_run_config_witness :
  docs Sample.fresh (config_path Sample.defaults) = Doc (YMap Sample.run_config)
  /\ exists config s1,
       Train.load_config Sample.defaults (initial Sample.fresh)
       = (Ok (Sample.vocab, config), s1)
       /\ merged_config Sample.defaults Sample.fresh config
       /\ forall key,
            config !! key
            = match Sample.global_config !! key with
              | Some v => Some v
              | None => Sample.run_config !! key
              end.
Proof.
  exact (conj eq_refl
           (global_config_overrides_run_config Sample.defaults Sample.fresh
              Sample.run_config Sample.global_config Sample.vocab
              eq_refl eq_refl eq_refl)).
Defined.

(** C7.  The declared options and their defaults: with nothing on the
    command line [main] gets ["configs/train_config.yaml"], ["data"],
    [None], [False], [False], which is training from scratch; for any
    command line, a parameter that was not given has its default;
    [--resume] and [--ft] are flags. *)
Theorem command_line_defaults :
  args_of (params ∅)
  = Some {| config_path := "configs/train_config.yaml";
            data_folder := "data";
            pretrained_model_path := None;
            resume := false;
            ft := false |}
  /\ mode_of_flags <$> args_of (params ∅) = Some FromScratch
  /\ (fun o => (opt_decls o, opt_is_flag o, opt_default o)) <$> click_options
     = [ (["--config_path"; "-c"], false, VStr "configs/train_config.yaml");
         (["--data_folder"; "-d"], false, VStr "data");
         (["--pretrained_model_path"; "-p"], false, VNone);
         (["--resume"; "-r"], true, VBool false);
         (["--ft"; "-ft"], true, VBool false) ]
  /\ forall given : gmap string CliValue,
       params given !! "config_path"
       = Some (default (VStr "configs/train_config.yaml")
                 (given !! "config_path"))
       /\ params given !! "data_folder"
          = Some (default (VStr "data") (given !! "data_folder"))
       /\ params given !! "pretrained_model_path"
          = Some (default VNone (given !! "pretrained_model_path"))
       /\ params given !! "resume"
          = Some (default (VBool false) (given !! "resume"))
       /\ params given !! "ft" = Some (default (VBool false) (given !! "ft")).
Proof.
  split; [reflexivity |]. split; [reflexivity |]. split; [reflexivity |].
  intros given. unfold params, click_options, consume_value.
  cbn [fmap list_fmap opt_param opt_default list_to_map foldr uncurry].
  repeat split.
  all: repeat first [ rewrite lookup_insert_eq; reflexivity
                    | rewrite lookup_insert_ne by discriminate ].
Qed.

(** C9, as the code has it.  In a run that goes through, the divisor is
    2 when [data_augmentation_size > 0] and 1 otherwise, the sampler's
    maximum batch length is the float that [batch_max_length / divisor]
    gives, and the model task gets that same truth value as its
    augmentation flag.  For an integer [batch_max_length] of magnitude up
    to 2^53 the float is exactly half of it, or exactly the same number.
    For a float [batch_max_length] it is the same float, or the float
    with the exponent lowered by one, which is half of it (zeros,
    infinities and NaN stay as they are; floats with the lowest exponent
    are rounded when halved and are left out). *)
Theorem batch_length_halved_when_augmenting a w s :
  Train.main a (initial w) = (Ok tt, s) ->
  exists config batch_max_length size augmenting max_length,
    merged_config a w config
    /\ config !! "batch_max_length" = Some batch_max_length
    /\ config !! "data_augmentation_size" = Some size
    /\ greater_than_zero size augmenting
    /\ Py.truediv batch_max_length (if augmenting then 2 else 1)%positive
       = Ok (YFloat max_length)
    /\ sa_max_length <$> Calls.samplers (trace s) = [YFloat max_length]
    /\ ta_augmentation <$> Calls.tasks (trace s) = [augmenting]
    /\ (forall n,
         Py.int_value batch_max_length = Some n ->
         Z.abs n <= 2 ^ 53 ->
         exists q,
           Py.float_value max_length = Some q
           /\ (q == if augmenting then inject_Z n / 2 else inject_Z n)%Q)
    /\ forall f,
         batch_max_length = YFloat f ->
         valid_binary Py.prec Py.emax f = true ->
         match f with
         | S754_finite sign m e =>
             (augmenting = true -> -1074 < e) ->
             max_length
             = S754_finite sign m (if augmenting then e - 1 else e)
         | _ => max_length = f
         end.
Proof.
  intros H. apply main_ok in H
    as (config & vocab & aug & workers & maxlen & mn & ts & es & ckpt
        & Hprep & Hres & Hworld & Htrace).
  destruct Hprep as [Hmerged _ Hsize Haug Hbml Hmax _ _ _ _ _].
  apply gt_zero_ok in Haug.
  destruct (truediv_ok _ _ _ Hmax) as (_ & f & ->).
  exists config, (config !!! "batch_max_length"),
    (config !!! "data_augmentation_size"), aug, f.
  repeat (split; [assumption |]).
  rewrite Htrace. cbn zeta.
  split; [by_cases a; reflexivity |].
  split; [by_cases a; reflexivity |].
  split; [intros n Hn Hle; exact (truediv_exact _ n aug f Hn Hle Hmax) |].
  intros x Hx Hvalid. rewrite Hx in Hmax.
  pose proof (truediv_float_exact x aug Hvalid) as H.
  destruct x; try (rewrite H in Hmax; injection Hmax as <-; reflexivity).
  intros Hlow. rewrite (H Hlow) in Hmax. injection Hmax as <-. reflexivity.
Qed.

Lemma batch_length_halved_when_augmenting_witness :
  Train.main Sample.defaults (initial Sample.fresh)
  = (Ok tt, Run.outcome Sample.defaults Sample.fresh)
  /\ exists config batch_max_length size augmenting max_length,
       merged_config Sample.defaults Sample.fresh config
       /\ config !! "batch_max_length" = Some batch_max_length
       /\ config !! "data_augmentation_size" = Some size
       /\ greater_than_zero size augmenting
       /\ Py.truediv batch_max_length (if augmenting then 2 else 1)%positive
          = Ok (YFloat max_length)
       /\ sa_max_length
             <$> Calls.samplers
                   (trace (Run.outcome Sample.defaults Sample.fresh))
          = [YFloat max_length]
       /\ ta_augmentation
             <$> Calls.tasks (trace (Run.outcome Sample.defaults Sample.fresh))
          = [augmenting]
       /\ (forall n,
            Py.int_value batch_max_length = Some n ->
            Z.abs n <= 2 ^ 53 ->
            exists q,
              Py.float_value max_length = Some q
              /\ (q == if augmenting then inject_Z n / 2 else inject_Z n)%Q)
       /\ forall f,
            batch_max_length = YFloat f ->
            valid_binary Py.prec Py.emax f = true ->
            match f with
            | S754_finite sign m e =>
                (augmenting = true -> -1074 < e) ->
                max_length
                = S754_finite sign m (if augmenting then e - 1 else e)
            | _ => max_length = f
            end.
Proof.
  assert (H : Train.main Sample.defaults (initial Sample.fresh)
              = (Ok tt, Run.outcome Sample.defaults Sample.fresh))
    by reflexivity.
  exact (conj H (batch_length_halved_when_augmenting _ _ _ H)).
Defined.

(** C9, as stated, fails.  The run configuration sets [batch_max_length]
    to 2^53 + 1 and [data_augmentation_size] to 0.  The run goes through
    and the sampler gets the float 2^53: the batch length is not passed
    unchanged. *)
Lemma batch_length_rounded_above_float_precision :
  Train.main Sample.defaults (initial Run.long_batches)
  = (Ok tt, Run.outcome Sample.defaults Run.long_batches)
  /\ merged_config Sample.defaults Run.long_batches
       (delete "data_augmentation_size" Sample.global_config
        ∪ <["batch_max_length" := YInt 9007199254740993]> Sample.run_config)
  /\ (delete "data_augmentation_size" Sample.global_config
      ∪ <["batch_max_length" := YInt 9007199254740993]> Sample.run_config)
     !! "batch_max_length" = Some (YInt (2 ^ 53 + 1))
  /\ (delete "data_augmentation_size" Sample.global_config
      ∪ <["batch_max_length" := YInt 9007199254740993]> Sample.run_config)
     !! "data_augmentation_size" = Some (YInt 0)
  /\ sa_max_length
       <$> Calls.samplers
             (trace (Run.outcome Sample.defaults Run.long_batches))
     = [YFloat (S754_finite false 4503599627370496 1)]
  /\ Py.float_value (S754_finite false 4503599627370496 1)
     = Some (inject_Z (2 ^ 53))
  /\ ~ (inject_Z (2 ^ 53) == inject_Z (2 ^ 53 + 1))%Q.
Proof.
  split; [reflexivity |].
  split; [eexists _, _; repeat split; reflexivity |].
  do 4 (split; [reflexivity |]).
  intros H. discriminate H.
Qed.

(** On the sample documents the global configuration turns augmentation
    on, and the batch length 100 of the run configuration reaches the
    sampler as the float 50. *)
Example sample_batch_length :
  sa_max_length
    <$> Calls.samplers (trace (Run.outcome Sample.defaults Sample.fresh))
  = [YFloat (S754_finite false 7036874417766400 (-47))]
  /\ Py.float_value (S754_finite false 7036874417766400 (-47))
     = Some (7036874417766400 # 140737488355328)
  /\ (7036874417766400 # 140737488355328 == 50)%Q.
Proof. repeat split; reflexivity. Qed.

(** Beyond the range of floats the division raises and the run stops
    before the sampler is built. *)
Example truediv_overflow_stops :
  Py.truediv (YInt (2 ^ 1025)) 2 = Raise OverflowError.
Proof. reflexivity. Qed.

(** C10.  Whatever the configuration, the command line and the outcome
    of the run: a validation dataset is built with augmentation size 0
    and a loader over it has batch size 1, no shuffling and no batch
    sampler.  A run that goes through builds exactly one such dataset and
    one such loader and hands that loader to [trainer.fit]. *)
Theorem validation_pipeline_is_fixed a w :
  Forall validation_fixed (trace (snd (Train.main a (initial w))))
  /\ forall s,
       Train.main a (initial w) = (Ok tt, s) ->
       List.filter (fun d => is_valid (fst (fst (fst d))))
         (Calls.datasets (trace s))
       = [(Valid, YInt 0, Pathlib.of_string (data_folder a) // "binary",
           "valid")]
       /\ (fun l => (dl_batch_size l, dl_shuffle l, dl_batch_sampler l))
            <$> List.filter (fun l => is_valid (dl_dataset l))
                  (Calls.loaders (trace s))
          = [(Some 1, Some false, false)]
       /\ fit_val_dataloaders <$> Calls.fits (trace s) = [Valid].
Proof.
  split.
  - destruct (main_validation_fixed a (initial w)) as (new & E & Hall).
    rewrite E. exact Hall.
  - intros s H. apply main_ok in H
      as (config & vocab & aug & workers & maxlen & mn & ts & es & ckpt
          & Hprep & Hres & Hworld & Htrace).
    rewrite Htrace. cbn zeta. by_cases a; repeat split; reflexivity.
Qed.

Lemma validation_pipeline_is_fixed_witness :
  Train.main Run.finetuning (initial Sample.trained)
  = (Ok tt, Run.outcome Run.finetuning Sample.trained)
  /\ (fun l => (dl_batch_size l, dl_shuffle l, dl_batch_sampler l))
       <$> List.filter (fun l => is_valid (dl_dataset l))
             (Calls.loaders (trace (Run.outcome Run.finetuning Sample.trained)))
     = [(Some 1, Some false, false)].
Proof.
  assert (H : Train.main Run.finetuning (initial Sample.trained)
              = (Ok tt, Run.outcome Run.finetuning Sample.trained))
    by reflexivity.
  exact (conj H
           (proj1 (proj2
              (proj2 (validation_pipeline_is_fixed
                        Run.finetuning Sample.trained) _ H)))).
Defined.

(** C6.  In a run that goes through, the files opened are the run
    configuration, [<data_folder>/binary/vocab.yaml] and
    [<data_folder>/binary/global_config.yaml], in this order; the
    vocabulary handed to the model task is the document of the second and
    the configuration is merged from the first and the third.  The
    directory [ckpt/<model_name>], with [model_name] from the merged
    configuration, is created where it is missing (nothing else changes
    in the file system and it is a directory afterwards); it is the
    [ModelCheckpoint] directory when there is one, the trainer's root
    directory, and the directory that is scanned on resume. *)
Theorem files_and_checkpoint_directory a w s :
  Train.main a (initial w) = (Ok tt, s) ->
  exists config vocab model_name,
    let dir := Pathlib.of_string "ckpt" // model_name in
    merged_config a w config
    /\ docs w (Train.vocab_path a) = Doc vocab
    /\ config !! "model_name" = Some (YStr model_name)
    /\ Calls.opens (trace s)
       = [ config_path a;
           Pathlib.to_string
             (Pathlib.of_string (data_folder a) // "binary" // "vocab.yaml");
           Pathlib.to_string
             (Pathlib.of_string (data_folder a) // "binary"
              // "global_config.yaml") ]
    /\ ta_vocab <$> Calls.tasks (trace s) = [vocab]
    /\ Calls.mkdirs (trace s) = [dir]
    /\ (exists new,
          entries (world s) = entries w ++ new
          /\ Forall (fun e => snd e = KDir) new)
    /\ (parts dir <> [] -> Fs.lookup (entries (world s)) dir = Some KDir)
    /\ mc_dirpath <$> Calls.checkpoint_callbacks (trace s)
       = (if ft a then [] else [Pathlib.to_string dir])
    /\ tr_default_root_dir <$> Calls.trainers (trace s)
       = [Pathlib.to_string dir]
    /\ (forall d pattern, (d, pattern) ∈ Calls.scans (trace s) -> d = dir)
    /\ (plain (data_folder a) = true ->
        Train.vocab_path a = data_folder a +:+ "/binary/vocab.yaml"
        /\ Train.global_config_path a
           = data_folder a +:+ "/binary/global_config.yaml")
    /\ (plain model_name = true ->
        Pathlib.to_string dir = "ckpt/" +:+ model_name).
Proof.
  intros H. apply main_ok in H
    as (config & vocab & aug & workers & maxlen & mn & ts & es & ckpt
        & Hprep & Hres & Hworld & Htrace).
  exists config, vocab, mn. cbn zeta.
  destruct Hprep as [Hmerged Hvocab _ _ _ _ _ Hname _ _ Hmkdir].
  apply mkdir_chain_ok in Hmkdir as (new & -> & Hnew & Hdirs).
  rewrite Htrace, Hworld. cbn [world entries].
  split; [assumption |]. split; [assumption |]. split; [assumption |].
  split; [by_cases a; reflexivity |].
  split; [by_cases a; reflexivity |].
  split; [by_cases a; reflexivity |].
  split; [eauto |].
  split; [intros Hparts; apply Hdirs, ancestors_ends_with_self, Hparts |].
  split; [by_cases a; reflexivity |].
  split; [by_cases a; reflexivity |].
  split.
  { intros d pattern. by_cases a; cbn; intros Hin;
      repeat match goal with
             | H : _ ∈ _ :: _ |- _ => apply elem_of_cons in H as [H | H]
             | H : _ ∈ [] |- _ => inversion H
             | H : (_, _) = (_, _) |- _ => injection H as -> ->
             end; reflexivity. }
  split; [apply vocab_path_plain | apply ckpt_dir_plain].
Qed.

Lemma files_and_checkpoint_directory_witness :
  Train.main Sample.defaults (initial Sample.fresh)
  = (Ok tt, Run.outcome Sample.defaults Sample.fresh)
  /\ exists config vocab model_name,
       let dir := Pathlib.of_string "ckpt" // model_name in
       let s := Run.outcome Sample.defaults Sample.fresh in
       merged_config Sample.defaults Sample.fresh config
       /\ docs Sample.fresh (Train.vocab_path Sample.defaults) = Doc vocab
       /\ config !! "model_name" = Some (YStr model_name)
       /\ Calls.opens (trace s)
          = [ "configs/train_config.yaml";
              "data/binary/vocab.yaml";
              "data/binary/global_config.yaml" ]
       /\ ta_vocab <$> Calls.tasks (trace s) = [vocab]
       /\ Calls.mkdirs (trace s) = [dir]
       /\ (exists new,
             entries (world s) = entries Sample.fresh ++ new
             /\ Forall (fun e => snd e = KDir) new)
       /\ (parts dir <> [] -> Fs.lookup (entries (world s)) dir = Some KDir)
       /\ mc_dirpath <$> Calls.checkpoint_callbacks (trace s)
          = (if ft Sample.defaults then [] else [Pathlib.to_string dir])
       /\ tr_default_root_dir <$> Calls.trainers (trace s)
          = [Pathlib.to_string dir]
       /\ (forall d pattern, (d, pattern) ∈ Calls.scans (trace s) -> d = dir)
       /\ (plain (data_folder Sample.defaults) = true ->
           Train.vocab_path Sample.defaults
           = data_folder Sample.defaults +:+ "/binary/vocab.yaml"
           /\ Train.global_config_path Sample.defaults
              = data_folder Sample.defaults +:+ "/binary/global_config.yaml")
       /\ (plain model_name = true ->
           Pathlib.to_string dir = "ckpt/" +:+ model_name).
Proof.
  assert (H : Train.main Sample.defaults (initial Sample.fresh)
              = (Ok tt, Run.outcome Sample.defaults Sample.fresh))
    by reflexivity.
  exact (conj H (files_and_checkpoint_directory _ _ _ H)).
Defined.

(** On the sample documents: the directories made and the checkpoint
    directory handed to the callback. *)
Example sample_checkpoint_directory :
  (fun e => Pathlib.to_string (fst e))
    <$> entries (world (Run.outcome Sample.defaults Sample.fresh))
  = ["ckpt"; "ckpt/m"]
  /\ mc_dirpath
       <$> Calls.checkpoint_callbacks
             (trace (Run.outcome Sample.defaults Sample.fresh))
     = ["ckpt/m"].
Proof. split; reflexivity. Qed.

(** A file in the place of the checkpoint directory stops the run. *)
Example mkdir_over_a_file :
  fst (Train.main Sample.defaults
         (initial {| docs := Sample.documents;
                     entries := [Sample.dir "ckpt"; Sample.file "ckpt/m"] |}))
  = Raise (FileExistsError "ckpt/m").
Proof. reflexivity. Qed.
(** * Further properties of the code *)

(** ** Calls and their flags, on every run *)

Ltac emits_cases :=
  first
    [ apply emits_bind; [| intros ?]
    | apply emits_ret
    | apply emits_subscript
    | apply emits_lift
    | apply emits_emit
    | apply emits_load_yaml
    | apply emits_mkdir
    | apply emits_rglob
    | match goal with
      | |- emits _ (if negb ?b then _ else _) => destruct b eqn:?; cbn [negb]
      | |- emits _ (if ?b then _ else _) => destruct b eqn:?
      | |- emits _ (match ?x with _ => _ end) => destruct x eqn:?
      end ].

Lemma main_flag_gated a : emits (flag_gated a) (Train.main a).
Proof.
  unfold Train.main, Train.prepare, Train.load_config, Train.build_data,
    Train.build_model, Train.build_callbacks, Train.build_trainer,
    Train.resolve_ckpt, Train.save_finetuned, Train.ckpt_dir.
  repeat emits_cases; cbn;
    first [ exact I | assumption | reflexivity | eauto
          | repeat split; first [assumption | reflexivity] ].
Qed.

(** X1: lines 123-134, 163-174, 184-187.  Whatever the outcome of the
    run, also when it stops with an exception: a [ModelCheckpoint] is
    built only without [--ft], a checkpoint is saved only with [--ft] and
    then weights only, a pretrained checkpoint is loaded only when its
    path was given, and the checkpoint directory is scanned only with
    [--resume] and without a pretrained path. *)
Theorem calls_follow_their_flags a w :
  Forall (flag_gated a) (trace (snd (Train.main a (initial w)))).
Proof.
  destruct (main_flag_gated a (initial w)) as (new & E & Hall).
  rewrite E. exact Hall.
Qed.

(** ** Documents that do not load, configurations of the wrong shape *)

Lemma bind_raise {A B} (m : M A) (k : A -> M B) s e s2 :
  (m ≫= k) s = (Raise e, s2) ->
  m s = (Raise e, s2)
  \/ exists x s1, m s = (Ok x, s1) /\ k x s1 = (Raise e, s2).
Proof.
  unfold mbind, M_bind. destruct (m s) as [[x | e' |] s1]; intros H.
  - right. eauto.
  - left. injection H as <- <-. reflexivity.
  - discriminate H.
Qed.

Lemma load_yaml_raise path s e s1 :
  Fs.load_yaml path s = (Raise e, s1) ->
  load_error (world s) path = Some e
  /\ s1 = {| world := world s; trace := trace s ++ [EvOpen path] |}.
Proof.
  unfold Fs.load_yaml, load_error.
  destruct (docs (world s) path); intros H; try discriminate;
    injection H as <- <-; auto.
Qed.

Lemma load_yaml_loads path s y s1 :
  Fs.load_yaml path s = (Ok y, s1) -> load_error (world s) path = None.
Proof.
  intros H. apply load_yaml_ok in H as [H _]. unfold load_error.
  rewrite H. reflexivity.
Qed.

Lemma only_opens_app tr1 tr2 :
  only_opens tr1 -> only_opens tr2 -> only_opens (tr1 ++ tr2).
Proof. unfold only_opens. intros. apply Forall_app; auto. Qed.

Lemma all_loaded a w :
  first_load_error a w = None ->
  exists y vocab other,
    docs w (config_path a) = Doc y
    /\ docs w (Train.vocab_path a) = Doc vocab
    /\ docs w (Train.global_config_path a) = Doc other.
Proof.
  unfold first_load_error, load_error.
  destruct (docs w (config_path a)); cbn; try discriminate.
  destruct (docs w (Train.vocab_path a)); cbn; try discriminate.
  destruct (docs w (Train.global_config_path a)); cbn; try discriminate.
  eauto 6.
Qed.

(** How [load_config] can stop: at the first document that does not load,
    or, with all three loaded, in the merge. *)
Lemma load_config_raise a s e s1 :
  Train.load_config a s = (Raise e, s1) ->
  world s1 = world s
  /\ (exists opened, trace s1 = trace s ++ opened /\ only_opens opened)
  /\ (first_load_error a (world s) = Some e
      \/ (first_load_error a (world s) = None
          /\ exists y other,
               docs (world s) (config_path a) = Doc y
               /\ docs (world s) (Train.global_config_path a) = Doc other
               /\ Dict.update_method y other = Raise e)).
Proof.
  unfold Train.load_config, first_load_error. intros H.
  apply bind_raise in H as [H | (y & s2 & H1 & H)].
  { apply load_yaml_raise in H as [Hle ->]. cbn [world trace] in *.
    rewrite Hle.
    split; [reflexivity |]. split; [| auto].
    eexists. split; [reflexivity |]. repeat constructor. }
  pose proof (load_yaml_loads _ _ _ _ H1) as E1.
  apply load_yaml_ok in H1 as [Hy ->]. rewrite E1.
  apply bind_raise in H as [H | (v & s3 & H2 & H)].
  { apply load_yaml_raise in H as [Hle ->]. cbn [world trace] in *.
    rewrite Hle.
    split; [reflexivity |]. split; [| auto].
    eexists. rewrite <- app_assoc. split; [reflexivity |].
    repeat constructor. }
  pose proof (load_yaml_loads _ _ _ _ H2) as E2.
  apply load_yaml_ok in H2 as [Hv ->]. cbn [world trace] in *. rewrite E2.
  apply bind_raise in H as [H | (g & s4 & H3 & H)].
  { apply load_yaml_raise in H as [Hle ->]. cbn [world trace] in *.
    rewrite Hle.
    split; [reflexivity |]. split; [| auto].
    eexists. rewrite <- !app_assoc. split; [reflexivity |].
    repeat constructor. }
  pose proof (load_yaml_loads _ _ _ _ H3) as E3.
  apply load_yaml_ok in H3 as [Hg ->]. cbn [world trace] in *. rewrite E3.
  apply bind_raise in H as [H | (c & s5 & _ & H)]; [| discriminate H].
  injection H as H <-. cbn [world trace].
  split; [reflexivity |]. split.
  - eexists. rewrite <- !app_assoc. split; [reflexivity |].
    repeat constructor.
  - right. split; [reflexivity |]. eauto.
Qed.

(** The other way round: the outcome of [load_config] from the documents. *)
Lemma load_config_stops a s e :
  first_load_error a (world s) = Some e ->
  exists s1, Train.load_config a s = (Raise e, s1).
Proof.
  unfold first_load_error, load_error, Train.load_config, Fs.load_yaml,
    mbind, M_bind.
  destruct (docs (world s) (config_path a)) eqn:E1; cbn [world trace];
    try (intros H; injection H as <-; eauto).
  destruct (docs (world s) (Train.vocab_path a)) eqn:E2; cbn [world trace];
    try (intros H; injection H as <-; eauto).
  destruct (docs (world s) (Train.global_config_path a)) eqn:E3;
    cbn [world trace]; intros H; try discriminate; injection H as <-; eauto.
Qed.

Lemma load_config_merges a s y other :
  first_load_error a (world s) = None ->
  docs (world s) (config_path a) = Doc y ->
  docs (world s) (Train.global_config_path a) = Doc other ->
  exists vocab,
    docs (world s) (Train.vocab_path a) = Doc vocab
    /\ Train.load_config a s
       = (match Dict.update_method y other with
          | Ok config => Ok (vocab, config)
          | Raise e => Raise e
          | Unmodelled => Unmodelled
          end,
          {| world := world s; trace := trace s ++ load_events a |}).
Proof.
  unfold first_load_error, load_error, Train.load_config, Fs.load_yaml,
    mbind, M_bind, lift, mret, M_ret, load_events.
  intros H Hy Hg. rewrite Hy in H |- *. cbn [world trace].
  destruct (docs (world s) (Train.vocab_path a)) as [| | vocab] eqn:E2;
    try discriminate.
  exists vocab. split; [reflexivity |]. cbn [world trace]. rewrite Hg.
  cbn [world trace]. rewrite <- !app_assoc. cbn [app].
  destruct (Dict.update_method y other); reflexivity.
Qed.

Lemma main_stops_in_load a w e s1 :
  Train.load_config a
    {| world := w; trace := [EvSetEnv "TORCH_CUDNN_V8_API_ENABLED" "1"] |}
  = (Raise e, s1) ->
  Train.main a (initial w) = (Raise e, s1).
Proof.
  intros H. rewrite main_prepare_finish. unfold Train.prepare.
  unfold mbind at 1 2 3, M_bind at 1 2 3. cbn [emit initial world trace app].
  rewrite H. reflexivity.
Qed.

(** X2: lines 64-73.  When one of the three documents cannot be loaded,
    the run stops with the exception of the first such document, in the
    order run configuration, vocabulary, global configuration.  Nothing
    has then been built or created: the file system is as it was and the
    only calls made are the opening of files. *)
Theorem unloadable_document_stops_the_run a w e :
  first_load_error a w = Some e ->
  exists s, Train.main a (initial w) = (Raise e, s)
            /\ world s = w /\ only_opens (trace s).
Proof.
  intros H.
  destruct (load_config_stops a
              {| world := w;
                 trace := [EvSetEnv "TORCH_CUDNN_V8_API_ENABLED" "1"] |}
              e H) as (s1 & Hload).
  exists s1. split; [exact (main_stops_in_load _ _ _ _ Hload) |].
  apply load_config_raise in Hload as (Hw & (opened & -> & Hopened) & _).
  split; [exact Hw |]. apply only_opens_app; [repeat constructor | assumption].
Qed.

Lemma unloadable_document_stops_the_run_witness :
  first_load_error Sample.defaults Edge.no_vocab
  = Some (FileNotFoundError "data/binary/vocab.yaml")
  /\ exists s,
       Train.main Sample.defaults (initial Edge.no_vocab)
       = (Raise (FileNotFoundError "data/binary/vocab.yaml"), s)
       /\ world s = Edge.no_vocab /\ only_opens (trace s).
Proof.
  assert (H : first_load_error Sample.defaults Edge.no_vocab
              = Some (FileNotFoundError "data/binary/vocab.yaml"))
    by reflexivity.
  exact (conj H (unloadable_document_stops_the_run
                   Sample.defaults Edge.no_vocab _ H)).
Defined.

(** X3: line 73.  With the three documents loaded, a run configuration
    that is not a mapping stops the run with [AttributeError], and a
    mapping merged with a global configuration that is empty ([None]) or
    a number stops it with [TypeError].  In both cases the three files
    have been opened and nothing has been built. *)
Theorem wrong_shape_stops_the_run a w :
  first_load_error a w = None ->
  (forall y,
     docs w (config_path a) = Doc y ->
     is_mapping y = false ->
     Train.main a (initial w)
     = (Raise AttributeError,
        {| world := w;
           trace := EvSetEnv "TORCH_CUDNN_V8_API_ENABLED" "1"
                      :: load_events a |}))
  /\ (forall c other,
        docs w (config_path a) = Doc (YMap c) ->
        docs w (Train.global_config_path a) = Doc other ->
        not_iterable other = true ->
        Train.main a (initial w)
        = (Raise TypeError,
           {| world := w;
              trace := EvSetEnv "TORCH_CUDNN_V8_API_ENABLED" "1"
                         :: load_events a |})).
Proof.
  intros Hnone. split.
  - intros y Hy Hmap.
    destruct (all_loaded a w Hnone) as (? & ? & other & _ & _ & Hg).
    destruct (load_config_merges a
                {| world := w;
                   trace := [EvSetEnv "TORCH_CUDNN_V8_API_ENABLED" "1"] |}
                y other Hnone Hy Hg) as (vocab & _ & Hrun).
    apply main_stops_in_load. rewrite Hrun.
    destruct y; try reflexivity; discriminate Hmap.
  - intros c other Hy Hg Hother.
    destruct (load_config_merges a
                {| world := w;
                   trace := [EvSetEnv "TORCH_CUDNN_V8_API_ENABLED" "1"] |}
                (YMap c) other Hnone Hy Hg) as (vocab & _ & Hrun).
    apply main_stops_in_load. rewrite Hrun.
    destruct other; try discriminate Hother; reflexivity.
Qed.

Lemma wrong_shape_stops_the_run_witness :
  first_load_error Sample.defaults Edge.empty_global_config = None
  /\ Train.main Sample.defaults (initial Edge.empty_global_config)
     = (Raise TypeError,
        {| world := Edge.empty_global_config;
           trace := EvSetEnv "TORCH_CUDNN_V8_API_ENABLED" "1"
                      :: load_events Sample.defaults |}).
Proof.
  assert (H : first_load_error Sample.defaults Edge.empty_global_config = None)
    by reflexivity.
  exact (conj H (proj2 (wrong_shape_stops_the_run
                          Sample.defaults Edge.empty_global_config H)
                   Sample.run_config YNull eq_refl eq_refl eq_refl)).
Defined.


(** ** Names that are not step numbers *)

Lemma keyed_stops l :
  Exists (fun p => Resume.step_key p = None) l ->
  Resume.keyed l = Raise ValueError.
Proof.
  induction l as [| p l IH]; intros H; [inversion H |]. cbn.
  destruct (Resume.step_key p) as [k |] eqn:E; [| reflexivity].
  apply Exists_cons in H as [H | H]; [congruence |].
  rewrite (IH H). reflexivity.
Qed.

Lemma keyed_raise_inv l e :
  Resume.keyed l = Raise e ->
  Exists (fun p => Resume.step_key p = None) l.
Proof.
  induction l as [| p l IH]; cbn; [discriminate |].
  destruct (Resume.step_key p) as [k |] eqn:E; [| intros _; left; exact E].
  destruct (Resume.keyed l) as [kl | e' |]; try discriminate.
  intros H. injection H as ->. right. apply IH. reflexivity.
Qed.

Lemma keyed_modelled l : Resume.keyed l <> Unmodelled.
Proof.
  induction l as [| p l IH]; cbn; [discriminate |].
  destruct (Resume.step_key p); [| discriminate].
  destruct (Resume.keyed l); congruence.
Qed.

Lemma latest_raise_iff l :
  Resume.latest l = Raise ValueError <->
  Exists (fun p => Resume.step_key p = None) l.
Proof.
  unfold Resume.latest. split.
  - destruct (Resume.keyed l) as [kl | e |] eqn:E.
    + destruct (Resume.sorted_desc kl) as [| [k p] rest]; discriminate.
    + intros _. eapply keyed_raise_inv; eassumption.
    + discriminate.
  - intros H. rewrite (keyed_stops l H). reflexivity.
Qed.

Lemma finish_stops a config model_name s e :
  config !! "model_name" = Some (YStr model_name) ->
  pretrained_model_path a = None ->
  resume a = true ->
  let dir := Pathlib.of_string "ckpt" // model_name in
  Resume.latest (Fs.glob_below dir ".ckpt" (entries (world s))) = Raise e ->
  finish a config s
  = (Raise e,
     {| world := world s; trace := trace s ++ [EvRglob dir "*.ckpt"] |}).
Proof.
  intros Hname Hpre Hresume dir Hlatest. subst dir.
  unfold finish, Train.resolve_ckpt. rewrite Hpre, Hresume.
  unfold Fs.rglob, Train.ckpt_dir, Dict.subscript, Py.path_div, lift,
    mbind, M_bind.
  rewrite Hname. cbn [world trace]. rewrite Hlatest. reflexivity.
Qed.

(** X4: lines 170-174.  The resume rule raises [ValueError] exactly when
    one of the entries found has a step text that is not an integer.  In
    a run with [--resume] and no pretrained path this stops the program
    once the trainer is built: [trainer.fit] is never called and the file
    system is as it was after the trainer was built. *)
Theorem resume_stops_on_a_name_without_step_number a w config s1 model_name :
  pretrained_model_path a = None ->
  resume a = true ->
  Train.prepare a (initial w) = (Ok config, s1) ->
  config !! "model_name" = Some (YStr model_name) ->
  let dir := Pathlib.of_string "ckpt" // model_name in
  let found := Fs.glob_below dir ".ckpt" (entries (world s1)) in
  (Resume.latest found = Raise ValueError <->
   Exists (fun p => Resume.step_key p = None) found)
  /\ (Exists (fun p => Resume.step_key p = None) found ->
      exists s2,
        Train.main a (initial w) = (Raise ValueError, s2)
        /\ Calls.fits (trace s2) = []
        /\ world s2 = world s1).
Proof.
  intros Hpre Hresume Hp Hname dir found.
  split; [apply latest_raise_iff |]. intros Hbad.
  apply latest_raise_iff in Hbad.
  destruct (prepare_ok _ _ _ _ Hp)
    as (vocab & aug & workers & maxlen & mn & ts & es & Hprep & Hs1).
  eexists. split.
  - rewrite main_prepare_finish, (bind_run _ _ _ _ _ Hp).
    exact (finish_stops a config model_name s1 ValueError Hname Hpre Hresume
             Hbad).
  - cbn [world trace]. split; [| reflexivity].
    subst s1. cbn [trace]. unfold Calls.fits. rewrite omap_app.
    destruct (prepare_events_calls a config vocab aug workers maxlen
                (Pathlib.of_string "ckpt" // mn) ts) as (_ & Hfits & _).
    unfold Calls.fits in Hfits. rewrite Hfits. reflexivity.
Qed.

Lemma resume_stops_on_a_name_without_step_number_witness :
  Train.prepare Run.resuming (initial Run.versioned)
  = (Ok Run.config, Run.prepared Run.resuming Run.versioned)
  /\ exists s2,
       Train.main Run.resuming (initial Run.versioned) = (Raise ValueError, s2)
       /\ Calls.fits (trace s2) = []
       /\ world s2 = world (Run.prepared Run.resuming Run.versioned).
Proof.
  assert (H : Train.prepare Run.resuming (initial Run.versioned)
              = (Ok Run.config, Run.prepared Run.resuming Run.versioned))
    by reflexivity.
  refine (conj H
            (proj2 (resume_stops_on_a_name_without_step_number
                      Run.resuming Run.versioned _ _ "m" eq_refl eq_refl H
                      eq_refl) _)).
  change (Exists (fun p => Resume.step_key p = None)
            [ Pathlib.of_string "ckpt/m/step=100.ckpt";
              Pathlib.of_string "ckpt/m/step=100-v1.ckpt" ]).
  right. left. reflexivity.
Defined.

(** ** The scan order *)

Lemma keyed_raises l e : Resume.keyed l = Raise e -> e = ValueError.
Proof.
  induction l as [| p l IH]; cbn; [discriminate |].
  destruct (Resume.step_key p); [| intros H; injection H as <-; reflexivity].
  destruct (Resume.keyed l); try discriminate.
  intros H. injection H as <-. auto.
Qed.

Lemma latest_raises l e : Resume.latest l = Raise e -> e = ValueError.
Proof.
  unfold Resume.latest.
  destruct (Resume.keyed l) as [kl | e' |] eqn:E; try discriminate.
  - destruct (Resume.sorted_desc kl) as [| [k p] rest]; discriminate.
  - intros H. injection H as <-. eapply keyed_raises; eassumption.
Qed.

Lemma latest_ok_keys l ckpt_path :
  Resume.latest l = Ok ckpt_path ->
  Forall (fun p => is_Some (Resume.step_key p)) l.
Proof.
  unfold Resume.latest.
  destruct (Resume.keyed l) as [kl | |] eqn:E; try discriminate. intros _.
  apply keyed_inv in E as [<- Hall].
  apply Forall_fmap. eapply Forall_impl; [exact Hall |].
  intros [k p] Hk. cbn in *. eauto.
Qed.

Lemma latest_modelled l : Resume.latest l <> Unmodelled.
Proof.
  unfold Resume.latest. pose proof (keyed_modelled l).
  destruct (Resume.keyed l) as [kl | |]; try congruence.
  destruct (Resume.sorted_desc kl) as [| [k p] rest]; discriminate.
Qed.

(** What is chosen has the greatest step number of all that was found. *)
Lemma chosen_greatest p0 l ckpt_path :
  chosen (p0 :: l) ckpt_path ->
  exists p k,
    ckpt_path = Some (Pathlib.to_string p)
    /\ p ∈ p0 :: l
    /\ Resume.step_key p = Some k
    /\ forall q, q ∈ p0 :: l ->
         exists j, Resume.step_key q = Some j /\ j <= k.
Proof.
  intros (before & p & after & k & Hsplit & -> & Hk & Hlt & Hle).
  exists p, k. split; [reflexivity |]. rewrite Hsplit.
  split; [apply elem_of_app; right; left |]. split; [assumption |].
  intros q Hq. apply elem_of_app in Hq as [Hq | Hq].
  - destruct (Hlt q Hq) as (j & Hj & Hjk). exists j. split; [assumption | lia].
  - apply elem_of_cons in Hq as [-> | Hq];
      [exists k; split; [assumption | lia] |].
    exact (Hle q Hq).
Qed.

(** X5: lines 170-174.  When no two of the entries found have the same
    step number, the checkpoint resumed from (and whether the rule raises)
    does not depend on the order in which the directory scan reports the
    entries. *)
Theorem latest_ignores_scan_order (l l' : list Path) :
  l ≡ₚ l' ->
  (forall p q k,
     p ∈ l -> q ∈ l ->
     Resume.step_key p = Some k -> Resume.step_key q = Some k -> p = q) ->
  Resume.latest l = Resume.latest l'.
Proof.
  intros Hperm Hinj.
  destruct (Resume.latest l) as [c | e |] eqn:E.
  - pose proof (latest_ok_keys _ _ E) as Hkeys.
    assert (Hkeys' : Forall (fun p => is_Some (Resume.step_key p)) l').
    { rewrite <- Hperm. exact Hkeys. }
    destruct (latest_total l' Hkeys') as (c' & E'). rewrite E'. f_equal.
    apply latest_chosen in E. apply latest_chosen in E'.
    destruct l as [| p0 l].
    + apply Permutation_nil_l in Hperm. subst l'. cbn in *. congruence.
    + destruct l' as [| p0' l'];
        [apply Permutation_nil_r in Hperm; discriminate |].
      apply chosen_greatest in E as (p & k & -> & Hp & Hk & Hmax).
      apply chosen_greatest in E' as (p' & k' & -> & Hp' & Hk' & Hmax').
      assert (Hp'l : p' ∈ p0 :: l) by (rewrite Hperm; exact Hp').
      assert (Hpl' : p ∈ p0' :: l') by (rewrite <- Hperm; exact Hp).
      destruct (Hmax p' Hp'l) as (j & Hj & Hjk).
      destruct (Hmax' p Hpl') as (j' & Hj' & Hjk').
      assert (k = k') by (rewrite Hk in Hj'; rewrite Hk' in Hj;
                          injection Hj' as <-; injection Hj as <-; lia).
      subst k'. rewrite (Hinj p p' k Hp Hp'l Hk Hk'). reflexivity.
  - pose proof (latest_raises _ _ E). subst e.
    apply latest_raise_iff in E. symmetry. apply latest_raise_iff.
    rewrite <- Hperm. exact E.
  - exfalso. exact (latest_modelled l E).
Qed.

Lemma latest_ignores_scan_order_witness :
  [ Pathlib.of_string "ckpt/m/step=500.ckpt";
    Pathlib.of_string "ckpt/m/step=1500.ckpt" ]
  ≡ₚ [ Pathlib.of_string "ckpt/m/step=1500.ckpt";
       Pathlib.of_string "ckpt/m/step=500.ckpt" ]
  /\ Resume.latest [ Pathlib.of_string "ckpt/m/step=500.ckpt";
                     Pathlib.of_string "ckpt/m/step=1500.ckpt" ]
     = Resume.latest [ Pathlib.of_string "ckpt/m/step=1500.ckpt";
                       Pathlib.of_string "ckpt/m/step=500.ckpt" ].
Proof.
  assert (H : [ Pathlib.of_string "ckpt/m/step=500.ckpt";
                Pathlib.of_string "ckpt/m/step=1500.ckpt" ]
              ≡ₚ [ Pathlib.of_string "ckpt/m/step=1500.ckpt";
                   Pathlib.of_string "ckpt/m/step=500.ckpt" ])
    by apply perm_swap.
  refine (conj H (latest_ignores_scan_order _ _ H _)).
  intros p q k Hp Hq.
  apply elem_of_cons in Hp as [-> | Hp];
    [| apply elem_of_cons in Hp as [-> | Hp]; [| inversion Hp]];
    (apply elem_of_cons in Hq as [-> | Hq];
     [| apply elem_of_cons in Hq as [-> | Hq]; [| inversion Hq]]);
    try reflexivity; vm_compute; intros E1 E2; congruence.
Defined.


(** ** The configuration a run needs *)

Lemma build_data_keys a config s u s1 :
  Train.build_data a config s = (Ok u, s1) ->
  Forall (fun key => is_Some (config !! key))
    [ "float32_matmul_precision"; "random_seed"; "dataloader_workers";
      "data_augmentation_size"; "oversampling_weights"; "batch_max_length";
      "binning_length"; "drop_last" ].
Proof.
  unfold Train.build_data. intros H. run_inv.
  repeat (constructor; [eexists; eassumption |]). constructor.
Qed.

Lemma build_model_keys vocab config s u s1 :
  Train.build_model vocab config s = (Ok u, s1) ->
  Forall (fun key => is_Some (config !! key))
    [ "model"; "melspec_config"; "optimizer_config"; "loss_config" ].
Proof.
  unfold Train.build_model. intros H. run_inv.
  repeat (constructor; [eexists; eassumption |]). constructor.
Qed.

Lemma build_trainer_keys config cb s u s1 :
  Train.build_trainer config cb s = (Ok u, s1) ->
  Forall (fun key => is_Some (config !! key))
    [ "accelerator"; "devices"; "precision"; "gradient_clip_val";
      "gradient_clip_algorithm"; "val_check_interval" ].
Proof.
  unfold Train.build_trainer. intros H. run_inv.
  repeat (constructor; [eexists; eassumption |]). constructor.
Qed.

Lemma getitem_ok v key x :
  Py.getitem v key = Ok x -> exists m, v = YMap m /\ m !! key = Some x.
Proof.
  destruct v as [| | | | | | m]; cbn; try discriminate.
  destruct (m !! key) eqn:E; [| discriminate].
  intros H. injection H as <-. eauto.
Qed.

Lemma gt_zero_number v b : Py.gt_zero v = Ok b -> is_number v.
Proof.
  destruct v; cbn; auto; discriminate.
Qed.

Lemma truediv_number v d x : Py.truediv v d = Ok x -> is_number v.
Proof.
  unfold Py.truediv.
  destruct d as [[] | [] |]; try discriminate; destruct v; cbn; auto;
    discriminate.
Qed.

Ltac in_list :=
  apply list_elem_of_In; cbn; repeat (first [left; reflexivity | right]).

Lemma prepare_keys a w config s1 :
  Train.prepare a (initial w) = (Ok config, s1) ->
  forall key, key ∈ always_read -> config !! key = Some (config !!! key).
Proof.
  intros Hp.
  pose proof (prepare_ok _ _ _ _ Hp)
    as (vocab' & aug & workers & maxlen & mn & ts & es & Hprep & _).
  unfold Train.prepare in Hp.
  apply bind_ok in Hp as (? & s0 & _ & Hp).
  apply bind_ok in Hp as ([vocab cfg] & s2 & _ & Hp).
  apply bind_ok in Hp as (? & s3 & Hdata & Hp).
  apply bind_ok in Hp as (? & s4 & Hmodel & Hp).
  apply bind_ok in Hp as (cb & s5 & _ & Hp).
  apply bind_ok in Hp as (? & s6 & Htrainer & Hp).
  apply ret_ok in Hp as [E _]. subst cfg.
  apply build_data_keys in Hdata. apply build_model_keys in Hmodel.
  apply build_trainer_keys in Htrainer.
  pose proof (pr_model_name _ _ _ _ _ _ _ _ _ _ Hprep) as Hname.
  assert (G : Forall (fun key => is_Some (config !! key)) always_read).
  { unfold always_read.
    repeat match goal with
           | H : Forall _ (_ :: _) |- _ => apply Forall_cons in H as [? H]
           end.
    repeat (constructor; [first [assumption | eauto] |]). constructor. }
  rewrite Forall_forall in G.
  intros key Hin. destruct (G key Hin) as [v Hv].
  rewrite (lookup_total_correct _ _ _ Hv). exact Hv.
Qed.

(** A successful run of [main] with the configuration it has read. *)
Lemma main_ok_keys a w u s :
  Train.main a (initial w) = (Ok u, s) ->
  exists config vocab augmenting workers max_length model_name total_steps es
         ckpt_path,
    let dir := Pathlib.of_string "ckpt" // model_name in
    Prepared a config w vocab augmenting workers max_length model_name
      total_steps es
    /\ (forall key,
          key ∈ always_read -> config !! key = Some (config !!! key))
    /\ trace s
       = prepare_events a config vocab augmenting workers max_length dir
           total_steps
         ++ finish_events a dir ckpt_path.
Proof.
  rewrite main_prepare_finish. intros H.
  apply bind_ok in H as (config & s1 & Hp & Hf).
  pose proof (prepare_keys _ _ _ _ Hp) as Hkeys.
  apply prepare_ok in Hp
    as (vocab & aug & workers & maxlen & mn & ts & es & Hprep & ->).
  apply (finish_ok _ _ mn) in Hf as (ckpt & Hres & ->);
    [| exact (pr_model_name _ _ _ _ _ _ _ _ _ _ Hprep)].
  exists config, vocab, aug, workers, maxlen, mn, ts, es, ckpt.
  cbn [world trace] in *. auto.
Qed.

(** X6: lines 75-161.  A run goes through only when the merged
    configuration has every key the script reads ([num_ckpt_keep] only
    without [--ft]), [model_name] is a string, the optimizer configuration
    is a mapping with [total_steps], and [data_augmentation_size],
    [dataloader_workers] and [batch_max_length] are numbers. *)
Theorem run_needs_its_configuration a w s :
  Train.main a (initial w) = (Ok tt, s) ->
  exists config,
    merged_config a w config
    /\ Forall (fun key => is_Some (config !! key)) (required_keys a)
    /\ (exists name, config !! "model_name" = Some (YStr name))
    /\ (exists m, config !! "optimizer_config" = Some (YMap m)
                  /\ is_Some (m !! "total_steps"))
    /\ Forall (fun key => exists v, config !! key = Some v /\ is_number v)
         [ "data_augmentation_size"; "dataloader_workers"; "batch_max_length" ].
Proof.
  intros H. apply main_ok_keys in H
    as (config & vocab & aug & workers & maxlen & mn & ts & es & ckpt
        & Hprep & Hkeys & _).
  exists config.
  destruct Hprep as [Hmerged _ Hsize Haug Hbml Hmax Hw Hname Hkeep Hts _].
  split; [assumption |]. split; [| split; [eauto | split]].
  - unfold required_keys. apply Forall_app. split.
    + apply Forall_forall. intros key Hin. rewrite (Hkeys key Hin). eauto.
    + destruct (ft a); [constructor |].
      repeat constructor. rewrite (Hkeep eq_refl). eauto.
  - apply getitem_ok in Hts as (m & Hm & Hsteps). exists m.
    rewrite (Hkeys "optimizer_config"), Hm by in_list.
    eauto.
  - repeat constructor; eexists;
      (split; [apply Hkeys; in_list |]).
    + eapply gt_zero_number; eassumption.
    + eapply gt_zero_number; eassumption.
    + eapply truediv_number; eassumption.
Qed.

Lemma run_needs_its_configuration_witness :
  Train.main Sample.defaults (initial Sample.fresh)
  = (Ok tt, Run.outcome Sample.defaults Sample.fresh)
  /\ exists config,
       merged_config Sample.defaults Sample.fresh config
       /\ Forall (fun key => is_Some (config !! key))
            (required_keys Sample.defaults)
       /\ (exists name, config !! "model_name" = Some (YStr name))
       /\ (exists m, config !! "optimizer_config" = Some (YMap m)
                     /\ is_Some (m !! "total_steps"))
       /\ Forall (fun key => exists v, config !! key = Some v /\ is_number v)
            [ "data_augmentation_size"; "dataloader_workers";
              "batch_max_length" ].
Proof.
  assert (H : Train.main Sample.defaults (initial Sample.fresh)
              = (Ok tt, Run.outcome Sample.defaults Sample.fresh))
    by reflexivity.
  exact (conj H (run_needs_its_configuration _ _ _ H)).
Defined.

(** ** The progress bar *)

(** X7: lines 140-145.  The metrics the progress bar shows never hold
    [v_num]; [steps] is the trainer's step counter when [show_steps] is
    on (as it is for the bar the script builds) and the framework's own
    entry otherwise; every other metric is shown as the framework gives
    it. *)
Theorem progress_bar_metrics show_steps global_step items :
  let shown := Train.get_metrics show_steps global_step items in
  shown !! "v_num" = None
  /\ shown !! "steps"
     = (if show_steps then Some global_step else items !! "steps")
  /\ forall key,
       key <> "v_num" -> key <> "steps" -> shown !! key = items !! key.
Proof.
  unfold Train.get_metrics. cbn zeta. split; [apply lookup_delete_eq |].
  split.
  - rewrite lookup_delete_ne by discriminate.
    destruct show_steps; [apply lookup_insert_eq | reflexivity].
  - intros key Hv Hs. rewrite lookup_delete_ne by congruence.
    destruct show_steps; [| reflexivity].
    apply lookup_insert_ne. congruence.
Qed.

Lemma progress_bar_metrics_witness :
  Train.get_metrics true "1200" {[ "loss" := "0.31"; "v_num" := "3" ]}
  !! "loss"
  = ({[ "loss" := "0.31"; "v_num" := "3" ]} : gmap string string) !! "loss".
Proof.
  apply (progress_bar_metrics true "1200"
           {[ "loss" := "0.31"; "v_num" := "3" ]}); discriminate.
Defined.
